(** * ClimateSense AI Architect: the floor-plan renderer, the climate card
      and the application state controller

    A shallow embedding of
      - src/components/FloorPlanViewer.tsx (bounding box, centroid map,
        room-reference resolution, diagnostic overlays),
      - src/components/ClimateCard.tsx (the overall score),
      - App.tsx (the Generate, Refine and Diagnose workflows) and types.ts,
    followed by the properties the specification states about them.

    Conventions of the embedding.
      - A JavaScript string is a [string]: the sequence of its code units,
        each below 256 (the Latin-1 range), on which [toLowerCase] and
        [trim] are written out.
      - A JavaScript number is an IEEE 754 binary64 value.  A field that
        comes out of [JSON.parse] holds a finite double, kept as the
        rational [Q] it denotes; the values the renderer computes live in
        [number], the rationals extended with the two infinities and
        [NaN].  Every sum, difference, product and quotient is the exact
        result rounded to the nearest double, a tie going to the even
        significand, and an infinity when it overflows ([JS.round64]).
        The sign of zero is not kept.
      - The climate card's formulas are given twice: [ClimateCard] and
        [ClimateSummary] read them over the rationals, which is what the
        formulas denote and what their ranges and orderings are stated
        of; [ClimateCardNumbers] evaluates the overall score as the
        program does, one rounded operation after the other, and the
        two are shown to be at most one apart.
      - The remote text-generation service is an oracle: the n-th request
        is answered by an arbitrary function of n and of the request. *)

From Stdlib Require Import List String Ascii Bool NArith ZArith QArith Qround Lia Lqa.
Import ListNotations.

Set Implicit Arguments.

(* ===================================================================== *)
(** * JavaScript values used by the program *)
(* ===================================================================== *)

Module JS.

(** ** Strings *)

Definition code (c : ascii) : N := N_of_ascii c.

(** Code units that [String.prototype.toLowerCase] maps to another code
    unit: A-Z and the Latin-1 capitals U+00C0..U+00DE without U+00D7. *)
Definition is_upper (c : ascii) : bool :=
  let n := code c in
  ((65 <=? n) && (n <=? 90) || (192 <=? n) && (n <=? 222) && negb (n =? 215))%N.

Definition lower_char (c : ascii) : ascii :=
  if is_upper c then ascii_of_N (code c + 32) else c.

Fixpoint toLowerCase (s : string) : string :=
  match s with
  | EmptyString => EmptyString
  | String c s' => String (lower_char c) (toLowerCase s')
  end.

(** WhiteSpace and LineTerminator code units below 256: TAB, LF, VT, FF,
    CR, SP and NBSP. *)
Definition is_space (c : ascii) : bool :=
  let n := code c in
  ((9 <=? n) && (n <=? 13) || (n =? 32) || (n =? 160))%N.

Fixpoint trimStart (s : string) : string :=
  match s with
  | EmptyString => EmptyString
  | String c s' => if is_space c then trimStart s' else s
  end.

Fixpoint trimEnd (s : string) : string :=
  match s with
  | EmptyString => EmptyString
  | String c s' =>
      match trimEnd s' with
      | EmptyString => if is_space c then EmptyString else String c EmptyString
      | t => String c t
      end
  end.

Definition trim (s : string) : string := trimEnd (trimStart s).

(** [s.includes(t)]: [t] occurs in [s] as a contiguous run of code units. *)
Fixpoint includes (s t : string) : bool :=
  String.prefix t s ||
  match s with
  | EmptyString => false
  | String _ s' => includes s' t
  end.

(** ** Numbers

    A number is a binary64 value: [NaN], an infinity, or a finite double,
    which [Finite] holds as the rational it denotes. *)

Inductive number : Type :=
  | NaN
  | NegInfinity
  | Finite (q : Q)
  | Infinity.

(** The integer nearest to a rational, the even one at a tie. *)
Definition nearest_even (q : Q) : Z :=
  let f := Qfloor q in
  match (q - inject_Z f ?= 1 # 2)%Q with
  | Lt => f
  | Gt => (f + 1)%Z
  | Eq => if Z.even f then f else (f + 1)%Z
  end.

(** Every finite double is an integer multiple of 2^-1074, the smallest
    subnormal; [quanta] of them make one. *)
Definition quanta : Z := (2 ^ 1074)%Z.

(** A positive magnitude [t], counted in multiples of 2^-1074, rounded to
    53 significant bits.  Below 2^53 (the subnormals and the first
    binade of the normal doubles) the doubles are the integers; from
    2^(52+s) up to 2^(53+s) they are the multiples of 2^s. *)
Definition round_quanta (t : Q) : Z :=
  let shift := Z.max 0 (Z.log2 (Qfloor t) - 52) in
  (nearest_even (t / inject_Z (2 ^ shift)) * 2 ^ shift)%Z.

(** The double nearest to a rational: the result of every arithmetic
    operation on finite doubles, and of reading a decimal literal.  A
    magnitude that rounds to 2^1024 or more overflows. *)
Definition round64 (q : Q) : number :=
  match Qnum q with
  | Z0 => Finite 0
  | Zpos _ =>
      let k := round_quanta (q * inject_Z quanta) in
      if (2 ^ 2098 <=? k)%Z then Infinity
      else Finite (Qred (inject_Z k / inject_Z quanta))
  | Zneg _ =>
      let k := round_quanta (- q * inject_Z quanta) in
      if (2 ^ 2098 <=? k)%Z then NegInfinity
      else Finite (Qred (- inject_Z k / inject_Z quanta))
  end.

Arguments round64 : simpl never.

Definition neg (a : number) : number :=
  match a with
  | NaN => NaN
  | NegInfinity => Infinity
  | Finite q => Finite (- q)
  | Infinity => NegInfinity
  end.

Definition add (a b : number) : number :=
  match a, b with
  | NaN, _ | _, NaN => NaN
  | Infinity, NegInfinity | NegInfinity, Infinity => NaN
  | Infinity, _ | _, Infinity => Infinity
  | NegInfinity, _ | _, NegInfinity => NegInfinity
  | Finite p, Finite q => round64 (p + q)
  end.

Definition sub (a b : number) : number := add a (neg b).

(** The sign of a rational: [Lt], [Eq] or [Gt] against zero. *)
Definition sign (q : Q) : comparison := (q ?= 0)%Q.

Definition mul (a b : number) : number :=
  match a, b with
  | NaN, _ | _, NaN => NaN
  | Finite p, Finite q => round64 (p * q)
  | Finite p, Infinity | Infinity, Finite p =>
      match sign p with Lt => NegInfinity | Eq => NaN | Gt => Infinity end
  | Finite p, NegInfinity | NegInfinity, Finite p =>
      match sign p with Lt => Infinity | Eq => NaN | Gt => NegInfinity end
  | Infinity, Infinity | NegInfinity, NegInfinity => Infinity
  | Infinity, NegInfinity | NegInfinity, Infinity => NegInfinity
  end.

(** [a / b] for a finite divisor other than zero, the only one the
    program divides by. *)
Definition div (a : number) (b : Q) : number :=
  match a with
  | NaN => NaN
  | Finite p => round64 (p / b)
  | Infinity =>
      match sign b with Lt => NegInfinity | _ => Infinity end
  | NegInfinity =>
      match sign b with Lt => Infinity | _ => NegInfinity end
  end.

Definition Math_min (a b : number) : number :=
  match a, b with
  | NaN, _ | _, NaN => NaN
  | NegInfinity, _ | _, NegInfinity => NegInfinity
  | Infinity, c | c, Infinity => c
  | Finite p, Finite q => if Qle_bool p q then Finite p else Finite q
  end.

Definition Math_max (a b : number) : number :=
  match a, b with
  | NaN, _ | _, NaN => NaN
  | Infinity, _ | _, Infinity => Infinity
  | NegInfinity, c | c, NegInfinity => c
  | Finite p, Finite q => if Qle_bool p q then Finite q else Finite p
  end.

(** [a <= b] on numbers; [NaN] compares with nothing. *)
Definition le (a b : number) : Prop :=
  match a, b with
  | NaN, _ | _, NaN => False
  | NegInfinity, _ => True
  | _, Infinity => True
  | Finite p, Finite q => (p <= q)%Q
  | _, _ => False
  end.

(** [Math.round]: the nearest integer, a tie going up.  It is exact: the
    nearest integer to a double is a double. *)
Definition Math_round (q : Q) : Z := Qfloor (q + (1 # 2)).

(** [Math.round] on every number: [NaN] and the infinities are returned
    as they are. *)
Definition Math_round_number (a : number) : number :=
  match a with
  | Finite q => Finite (inject_Z (Math_round q))
  | other => other
  end.

(** ** Objects used as string-keyed maps

    [const c: Record<string, V> = {}] is an ordinary object whose
    prototype is [Object.prototype].  Its own keys are enumerated array
    indices first, in ascending numeric order, then the other strings in
    the order of their creation; assigning to an existing key keeps the
    key's place.  [own] keeps the properties in that order. *)

Definition digit (c : ascii) : option N :=
  let n := code c in
  if ((48 <=? n) && (n <=? 57))%N then Some (n - 48)%N else None.

Fixpoint digits_value (s : string) (acc : N) : option N :=
  match s with
  | EmptyString => Some acc
  | String c s' =>
      match digit c with
      | Some d => digits_value s' (acc * 10 + d)%N
      | None => None
      end
  end.

(** The array index a property key denotes: a canonical decimal numeral
    (no leading zero) below 2^32 - 1. *)
Definition array_index (k : string) : option N :=
  match k with
  | EmptyString => None
  | String c k' =>
      if (c =? "0")%char then
        match k' with EmptyString => Some 0%N | _ => None end
      else
        match digits_value k 0 with
        | Some v => if (v <? 4294967295)%N then Some v else None
        | None => None
        end
  end.

Section Properties.
Variable V : Type.

Fixpoint lookup (k : string) (l : list (string * V)) : option V :=
  match l with
  | [] => None
  | (k', v) :: l' => if (k =? k')%string then Some v else lookup k l'
  end.

Fixpoint replace (k : string) (v : V) (l : list (string * V))
  : list (string * V) :=
  match l with
  | [] => []
  | (k', v') :: l' =>
      if (k =? k')%string then (k', v) :: l' else (k', v') :: replace k v l'
  end.

(** The place of a new array-index key: after the smaller indices. *)
Fixpoint insert_index (i : N) (e : string * V) (l : list (string * V))
  : list (string * V) :=
  match l with
  | [] => [e]
  | e' :: l' =>
      match array_index (fst e') with
      | Some j => if (j <? i)%N then e' :: insert_index i e l' else e :: l
      | None => e :: l
      end
  end.

Definition define (k : string) (v : V) (l : list (string * V))
  : list (string * V) :=
  match lookup k l with
  | Some _ => replace k v l
  | None =>
      match array_index k with
      | Some i => insert_index i (k, v) l
      | None => l ++ [(k, v)]
      end
  end.

(** An object created by [{}]: [prototype] is [None] while the
    prototype is [Object.prototype], and [Some p] once an assignment to
    [__proto__] has replaced it by the object [p]. *)
Record object : Type := {
  prototype : option V;
  own : list (string * V)
}.

Definition empty : object := {| prototype := None; own := [] |}.

(** [o[k] = v] for an object value [v].  The key [__proto__] reaches the
    setter that [Object.prototype] defines, which replaces the
    prototype; every other key creates or overwrites an own property. *)
Definition assign (o : object) (k : string) (v : V) : object :=
  if (k =? "__proto__")%string
  then {| prototype := Some v; own := own o |}
  else {| prototype := prototype o; own := define k v (own o) |}.

(** [Object.entries(o)]. *)
Definition Object_entries (o : object) : list (string * V) := own o.
End Properties.

(** The function-valued properties of [Object.prototype]. *)
Definition Object_prototype_methods : list string :=
  [ "constructor"; "hasOwnProperty"; "isPrototypeOf"; "propertyIsEnumerable";
    "toLocaleString"; "toString"; "valueOf"; "__defineGetter__";
    "__defineSetter__"; "__lookupGetter__"; "__lookupSetter__" ]%string.

Definition is_method (k : string) : bool :=
  existsb (String.eqb k) Object_prototype_methods.

End JS.

(* ===================================================================== *)
(** * The domain model (types.ts) *)
(* ===================================================================== *)

Inductive RoomType : Type :=
  living | bedroom | kitchen | bathroom | utility | buffer | circulation.

Inductive Side : Type := north | south | east | west.

Inductive Level : Type := low | medium | high.

Inductive Strength : Type := weak | moderate | strong.

Inductive Priority : Type := cooling | daylight | ventilation.

Module WindowPlacement.
Record t : Type := {
  side : Side;
  position : Q;
  width : Q;
  shading : bool
}.
End WindowPlacement.

Module Room.
Record t : Type := {
  id : string;
  name : string;
  type : RoomType;
  x : Q;
  y : Q;
  width : Q;
  height : Q;
  windows : list WindowPlacement.t;
  reasoning : string
}.
End Room.

Module ClimateData.
Record t : Type := {
  location : string;
  climateZone : string;
  averageTemp : Q * Q;
  solarPotential : string;
  prevailingWinds : string;
  climate_challenges : list string;
  design_strategies : list string;
  orientation_guidance : string;
  window_guidance : string;
  zoning_guidance : string
}.
End ClimateData.

Module RejectedAlternative.
Record t : Type := {
  option : string;
  reason_for_rejection : string
}.
End RejectedAlternative.

Module HeatRiskZone.
Record t : Type := { room : string; level : Level }.
End HeatRiskZone.

Module AirflowPath.
Record t : Type := { from : string; to : string; strength : Strength }.

Definition strength_text (s : Strength) : string :=
  match s with
  | weak => "weak"
  | moderate => "moderate"
  | strong => "strong"
  end.

(** Reading a property of an airflow entry by name: the interface
    declares [from], [to] and [strength], and the response schemas of
    the service list the same three; any other name reads [undefined]. *)
Definition get (flow : t) (k : string) : option string :=
  if (k =? "from")%string then Some (from flow)
  else if (k =? "to")%string then Some (to flow)
  else if (k =? "strength")%string then Some (strength_text (strength flow))
  else None.
End AirflowPath.

Module DaylightZone.
Record t : Type := { room : string; quality : Level }.
End DaylightZone.

Module ClimateDiagnostics.
Record t : Type := {
  heat_risk : list HeatRiskZone.t;
  airflow : list AirflowPath.t;
  daylight : list DaylightZone.t
}.
End ClimateDiagnostics.

Module OptimizationEvaluation.
Record t : Type := {
  iterate : bool;
  recommended_adjustments : list string;
  expected_benefit : string
}.
End OptimizationEvaluation.

Module PerformanceMetrics.
Record t : Type := {
  naturalLightScore : Q;
  ventilationEfficiency : Q;
  thermalMassUtilization : Q;
  solarControlRating : Q
}.
End PerformanceMetrics.

Module FloorPlan.
Record t : Type := {
  designTitle : string;
  orientation : Q;
  rooms : list Room.t;
  totalArea : Q;
  performanceMetrics : PerformanceMetrics.t;
  architectReasoning : string;
  rejected_alternatives : list RejectedAlternative.t;
  diagnostics : ClimateDiagnostics.t
}.
End FloorPlan.

Module ExpectedImprovements.
Record t : Type := {
  heat : string;
  airflow : string;
  heat_improvement_pct : Q;
  airflow_improvement_pct : Q
}.
End ExpectedImprovements.

Module RefinementResult.
Record t : Type := {
  revised_floor_plan : FloorPlan.t;
  changes_made : list string;
  expected_improvements : ExpectedImprovements.t
}.
End RefinementResult.

Module DesignState.
Record t : Type := {
  isGenerating : bool;
  isRefining : bool;
  isEvaluating : bool;
  isDiagnosing : bool;
  climate : option ClimateData.t;
  floorPlan : option FloorPlan.t;
  previousFloorPlan : option FloorPlan.t;
  refinement : option RefinementResult.t;
  optimizationVerdict : option OptimizationEvaluation.t;
  error : option string;
  history : list string
}.
End DesignState.

(* ===================================================================== *)
(** * components/FloorPlanViewer.tsx *)
(* ===================================================================== *)

Module FloorPlanViewer.
Import JS.

Definition SCALE : number := Finite 35.
Definition PADDING : number := Finite 60.

(** ** [dimensions] *)

Record Bounds : Type := {
  minX : number;
  minY : number;
  maxX : number;
  maxY : number
}.

(** The body of [plan.rooms.forEach(r => ...)]. *)
Definition extend (b : Bounds) (r : Room.t) : Bounds :=
  {| minX := Math_min (minX b) (Finite (Room.x r));
     minY := Math_min (minY b) (Finite (Room.y r));
     maxX := Math_max (maxX b) (add (Finite (Room.x r)) (Finite (Room.width r)));
     maxY := Math_max (maxY b) (add (Finite (Room.y r)) (Finite (Room.height r))) |}.

Definition bounds (plan : FloorPlan.t) : Bounds :=
  fold_left extend (FloorPlan.rooms plan)
    {| minX := Infinity; minY := Infinity;
       maxX := NegInfinity; maxY := NegInfinity |}.

Record Dimensions : Type := {
  width : number;
  height : number;
  offsetX : number;
  offsetY : number
}.

Definition dimensions (plan : FloorPlan.t) : Dimensions :=
  let b := bounds plan in
  {| width := add (mul (sub (maxX b) (minX b)) SCALE) (mul PADDING (Finite 2));
     height := add (mul (sub (maxY b) (minY b)) SCALE) (mul PADDING (Finite 2));
     offsetX := minX b;
     offsetY := minY b |}.

(** ** [roomCentroids] *)

Module Centroid.
Record t : Type := { x : number; y : number }.
End Centroid.

(** [a / 2]. *)
Definition half (a : number) : number := div a 2.

Definition centroid (plan : FloorPlan.t) (r : Room.t) : Centroid.t :=
  let d := dimensions plan in
  {| Centroid.x :=
       add (add (mul (sub (Finite (Room.x r)) (offsetX d)) SCALE) PADDING)
           (half (mul (Finite (Room.width r)) SCALE));
     Centroid.y :=
       add (add (mul (sub (Finite (Room.y r)) (offsetY d)) SCALE) PADDING)
           (half (mul (Finite (Room.height r)) SCALE)) |}.

Definition roomCentroids (plan : FloorPlan.t) : object Centroid.t :=
  fold_left
    (fun c r => assign c (toLowerCase (Room.name r)) (centroid plan r))
    (FloorPlan.rooms plan) (empty Centroid.t).

(** ** [findCentroid] *)

(** What [roomCentroids[ref]] and [match?.[1]] can evaluate to. *)
Inductive value : Type :=
  | Undefined
  | Object (p : Centroid.t)       (* a centroid [{x, y}] *)
  | Number (n : number)           (* a coordinate of a centroid *)
  | Function (name : string)      (* a method of [Object.prototype] *)
  | ObjectPrototype.              (* [Object.prototype] itself *)

(** A lookup that reaches [Object.prototype]; [proto] is the prototype of
    the object the lookup started from, which the [__proto__] getter
    returns. *)
Definition inherited (proto : value) (k : string) : value :=
  if (k =? "__proto__")%string then proto
  else if is_method k then Function k
  else Undefined.

(** [c[k]]: own properties, then the prototype chain. *)
Definition get (c : object Centroid.t) (k : string) : value :=
  match lookup k (own c) with
  | Some p => Object p
  | None =>
      match prototype c with
      | Some p =>
          if (k =? "x")%string then Number (Centroid.x p)
          else if (k =? "y")%string then Number (Centroid.y p)
          else inherited (Object p) k
      | None => inherited ObjectPrototype k
      end
  end.

Definition truthy (v : value) : bool :=
  match v with
  | Undefined => false
  | Number NaN => false
  | Number (Finite q) => negb (Qeq_bool q 0)
  | _ => true
  end.

(** The predicate of the partial match: either key contains the other. *)
Definition related (key ref : string) : bool :=
  includes key ref || includes ref key.

Definition findCentroid (plan : FloorPlan.t) (roomRef : string) : value :=
  let ref := trim (toLowerCase roomRef) in
  let c := roomCentroids plan in
  if truthy (get c ref) then get c ref
  else
    match find (fun e => related (fst e) ref) (Object_entries c) with
    | Some e => Object (snd e)
    | None => Undefined
    end.

(** ** Heat-risk and daylight overlays *)

Definition heatRisk (plan : FloorPlan.t) (room : Room.t)
  : option HeatRiskZone.t :=
  find (fun z =>
          includes (toLowerCase (HeatRiskZone.room z)) (toLowerCase (Room.name room))
          || includes (toLowerCase (Room.name room)) (toLowerCase (HeatRiskZone.room z)))
       (ClimateDiagnostics.heat_risk (FloorPlan.diagnostics plan)).

Definition daylight (plan : FloorPlan.t) (room : Room.t)
  : option DaylightZone.t :=
  find (fun z =>
          includes (toLowerCase (DaylightZone.room z)) (toLowerCase (Room.name room))
          || includes (toLowerCase (Room.name room)) (toLowerCase (DaylightZone.room z)))
       (ClimateDiagnostics.daylight (FloorPlan.diagnostics plan)).

(** The [fillOpacity] of the heat-risk rectangle of a room, when drawn. *)
Definition heatOverlay (showHeatRisk : bool) (plan : FloorPlan.t) (room : Room.t)
  : option Q :=
  if showHeatRisk then
    match heatRisk plan room with
    | Some z =>
        Some match HeatRiskZone.level z with
             | high => 45 # 100
             | medium => 25 # 100
             | low => 1 # 10
             end
    | None => None
    end
  else None.

(** The [fill] of the daylight rectangle of a room, when drawn. *)
Definition daylightOverlay (showDaylight : bool) (plan : FloorPlan.t) (room : Room.t)
  : option string :=
  if showDaylight then
    match daylight plan room with
    | Some z =>
        Some match DaylightZone.quality z with
             | high => "#fbbf24"
             | medium => "#94a3b8"
             | low => "#64748b"
             end%string
    | None => None
    end
  else None.

(** ** Airflow paths *)

Record Line : Type := {
  x1 : option number;
  y1 : option number;
  x2 : option number;
  y2 : option number;
  strokeWidth : Q;
  strokeOpacity : Q
}.

(** [v.x] and [v.y] for a truthy [v]: only a centroid has them. *)
Definition dot_x (v : value) : option number :=
  match v with Object p => Some (Centroid.x p) | _ => None end.

Definition dot_y (v : value) : option number :=
  match v with Object p => Some (Centroid.y p) | _ => None end.

(** [flow.efficiency]. *)
Definition efficiency (flow : AirflowPath.t) : option string :=
  AirflowPath.get flow "efficiency".

Definition is_high (e : option string) : bool :=
  match e with
  | Some s => (s =? "high")%string
  | None => false
  end.

(** The callback of [plan.diagnostics.airflow.map]: [None] is [null]. *)
Definition airflowLine (plan : FloorPlan.t) (flow : AirflowPath.t)
  : option Line :=
  let from := findCentroid plan (AirflowPath.from flow) in
  let to := findCentroid plan (AirflowPath.to flow) in
  if negb (truthy from) || negb (truthy to) then None
  else
    Some {| x1 := dot_x from; y1 := dot_y from;
            x2 := dot_x to; y2 := dot_y to;
            strokeWidth := if is_high (efficiency flow) then 3 else 2;
            strokeOpacity :=
              if is_high (efficiency flow) then 9 # 10 else 6 # 10 |}.

Definition airflowPaths (showAirflow : bool) (plan : FloorPlan.t)
  : list (option Line) :=
  if showAirflow
  then map (airflowLine plan) (ClimateDiagnostics.airflow (FloorPlan.diagnostics plan))
  else [].

End FloorPlanViewer.

(* ===================================================================== *)
(** * components/ClimateCard.tsx *)
(* ===================================================================== *)

Module ClimateCard.
Import JS.

Definition avgScore (metrics : option PerformanceMetrics.t) : option Z :=
  match metrics with
  | Some m =>
      Some (Math_round
              ((PerformanceMetrics.naturalLightScore m
                + PerformanceMetrics.ventilationEfficiency m
                + PerformanceMetrics.thermalMassUtilization m
                + PerformanceMetrics.solarControlRating m) / 4 * 100))
  | None => None
  end.

(** The number in front of the percent sign under "Overall Passive
    Efficiency"; the panel is rendered only when [metrics] is present. *)
Definition overallPassiveEfficiency (metrics : option PerformanceMetrics.t)
  : option Z :=
  match metrics with
  | Some _ => avgScore metrics
  | None => None
  end.

End ClimateCard.

(** The same two values as the program computes them: the operands are
    doubles and each of the three sums, the quotient and the product is
    rounded before the next operation reads it. *)
Module ClimateCardNumbers.
Import JS.

Definition avgScore (metrics : option PerformanceMetrics.t) : option number :=
  match metrics with
  | Some m =>
      Some (Math_round_number
              (mul
                 (div
                    (add
                       (add
                          (add (Finite (PerformanceMetrics.naturalLightScore m))
                               (Finite (PerformanceMetrics.ventilationEfficiency m)))
                          (Finite (PerformanceMetrics.thermalMassUtilization m)))
                       (Finite (PerformanceMetrics.solarControlRating m)))
                    4)
                 (Finite 100)))
  | None => None
  end.

Definition overallPassiveEfficiency (metrics : option PerformanceMetrics.t)
  : option number :=
  match metrics with
  | Some _ => avgScore metrics
  | None => None
  end.

End ClimateCardNumbers.

(* ===================================================================== *)
(** * App.tsx: the application state controller *)
(* ===================================================================== *)

Module App.
Import DesignState.

(** ** Field updates: [{ ...prev, field: v }] *)

Definition with_isGenerating (v : bool) (s : DesignState.t) : DesignState.t :=
  {| isGenerating := v; isRefining := isRefining s;
     isEvaluating := isEvaluating s; isDiagnosing := isDiagnosing s;
     climate := climate s; floorPlan := floorPlan s;
     previousFloorPlan := previousFloorPlan s; refinement := refinement s;
     optimizationVerdict := optimizationVerdict s; error := error s;
     history := history s |}.

Definition with_isRefining (v : bool) (s : DesignState.t) : DesignState.t :=
  {| isGenerating := isGenerating s; isRefining := v;
     isEvaluating := isEvaluating s; isDiagnosing := isDiagnosing s;
     climate := climate s; floorPlan := floorPlan s;
     previousFloorPlan := previousFloorPlan s; refinement := refinement s;
     optimizationVerdict := optimizationVerdict s; error := error s;
     history := history s |}.

Definition with_isEvaluating (v : bool) (s : DesignState.t) : DesignState.t :=
  {| isGenerating := isGenerating s; isRefining := isRefining s;
     isEvaluating := v; isDiagnosing := isDiagnosing s;
     climate := climate s; floorPlan := floorPlan s;
     previousFloorPlan := previousFloorPlan s; refinement := refinement s;
     optimizationVerdict := optimizationVerdict s; error := error s;
     history := history s |}.

Definition with_isDiagnosing (v : bool) (s : DesignState.t) : DesignState.t :=
  {| isGenerating := isGenerating s; isRefining := isRefining s;
     isEvaluating := isEvaluating s; isDiagnosing := v;
     climate := climate s; floorPlan := floorPlan s;
     previousFloorPlan := previousFloorPlan s; refinement := refinement s;
     optimizationVerdict := optimizationVerdict s; error := error s;
     history := history s |}.

Definition with_climate (v : option ClimateData.t) (s : DesignState.t)
  : DesignState.t :=
  {| isGenerating := isGenerating s; isRefining := isRefining s;
     isEvaluating := isEvaluating s; isDiagnosing := isDiagnosing s;
     climate := v; floorPlan := floorPlan s;
     previousFloorPlan := previousFloorPlan s; refinement := refinement s;
     optimizationVerdict := optimizationVerdict s; error := error s;
     history := history s |}.

Definition with_floorPlan (v : option FloorPlan.t) (s : DesignState.t)
  : DesignState.t :=
  {| isGenerating := isGenerating s; isRefining := isRefining s;
     isEvaluating := isEvaluating s; isDiagnosing := isDiagnosing s;
     climate := climate s; floorPlan := v;
     previousFloorPlan := previousFloorPlan s; refinement := refinement s;
     optimizationVerdict := optimizationVerdict s; error := error s;
     history := history s |}.

Definition with_previousFloorPlan (v : option FloorPlan.t) (s : DesignState.t)
  : DesignState.t :=
  {| isGenerating := isGenerating s; isRefining := isRefining s;
     isEvaluating := isEvaluating s; isDiagnosing := isDiagnosing s;
     climate := climate s; floorPlan := floorPlan s;
     previousFloorPlan := v; refinement := refinement s;
     optimizationVerdict := optimizationVerdict s; error := error s;
     history := history s |}.

Definition with_refinement (v : option RefinementResult.t) (s : DesignState.t)
  : DesignState.t :=
  {| isGenerating := isGenerating s; isRefining := isRefining s;
     isEvaluating := isEvaluating s; isDiagnosing := isDiagnosing s;
     climate := climate s; floorPlan := floorPlan s;
     previousFloorPlan := previousFloorPlan s; refinement := v;
     optimizationVerdict := optimizationVerdict s; error := error s;
     history := history s |}.

Definition with_optimizationVerdict (v : option OptimizationEvaluation.t)
  (s : DesignState.t) : DesignState.t :=
  {| isGenerating := isGenerating s; isRefining := isRefining s;
     isEvaluating := isEvaluating s; isDiagnosing := isDiagnosing s;
     climate := climate s; floorPlan := floorPlan s;
     previousFloorPlan := previousFloorPlan s; refinement := refinement s;
     optimizationVerdict := v; error := error s;
     history := history s |}.

Definition with_error (v : option string) (s : DesignState.t) : DesignState.t :=
  {| isGenerating := isGenerating s; isRefining := isRefining s;
     isEvaluating := isEvaluating s; isDiagnosing := isDiagnosing s;
     climate := climate s; floorPlan := floorPlan s;
     previousFloorPlan := previousFloorPlan s; refinement := refinement s;
     optimizationVerdict := optimizationVerdict s; error := v;
     history := history s |}.

Definition with_history (v : list string) (s : DesignState.t) : DesignState.t :=
  {| isGenerating := isGenerating s; isRefining := isRefining s;
     isEvaluating := isEvaluating s; isDiagnosing := isDiagnosing s;
     climate := climate s; floorPlan := floorPlan s;
     previousFloorPlan := previousFloorPlan s; refinement := refinement s;
     optimizationVerdict := optimizationVerdict s; error := error s;
     history := v |}.

(** [{ ...plan, diagnostics }]. *)
Definition with_diagnostics (d : ClimateDiagnostics.t) (p : FloorPlan.t)
  : FloorPlan.t :=
  {| FloorPlan.designTitle := FloorPlan.designTitle p;
     FloorPlan.orientation := FloorPlan.orientation p;
     FloorPlan.rooms := FloorPlan.rooms p;
     FloorPlan.totalArea := FloorPlan.totalArea p;
     FloorPlan.performanceMetrics := FloorPlan.performanceMetrics p;
     FloorPlan.architectReasoning := FloorPlan.architectReasoning p;
     FloorPlan.rejected_alternatives := FloorPlan.rejected_alternatives p;
     FloorPlan.diagnostics := d |}.

(** The argument of [useState<DesignState>]. *)
Definition initialState : DesignState.t :=
  {| isGenerating := false; isRefining := false;
     isEvaluating := false; isDiagnosing := false;
     climate := None; floorPlan := None; previousFloorPlan := None;
     refinement := None; optimizationVerdict := None; error := None;
     history := [] |}.

(** ** The remote service (services/geminiService.ts)

    Each exported function sends one request and parses the answer; what
    comes back is decided by the remote model.  A handler sees a promise
    that is fulfilled with a value of the declared type or rejected with
    an error. *)

Record JsError : Type := { message : option string }.

Inductive settled (A : Type) : Type :=
  | Fulfilled (a : A)
  | Rejected (err : JsError).
Arguments Fulfilled {A} a.
Arguments Rejected {A} err.

Inductive request : Type -> Type :=
  | getClimateData (location plotDimensions : string) (priority : Priority)
      : request ClimateData.t
  | generateDesign (climate : ClimateData.t) (plotDimensions requirements : string)
      : request FloorPlan.t
  | refineDesign (currentPlan : FloorPlan.t) (climate : ClimateData.t)
      : request RefinementResult.t
  | evaluateOptimization (metrics : PerformanceMetrics.t)
      : request OptimizationEvaluation.t
  | getDiagnostics (floorPlan : FloorPlan.t)
      : request ClimateDiagnostics.t.

(** The answer to the n-th request made since the page was loaded. *)
Definition Service : Type := forall R : Type, nat -> request R -> settled R.

(** ** Event handlers

    An async handler is a sequence of state updates ([setState] with an
    updater function) and awaited requests; [try]/[catch] is the case
    analysis on the settled promise. *)

Inductive handler : Type :=
  | Return
  | setState (f : DesignState.t -> DesignState.t) (k : handler)
  | await (R : Type) (req : request R) (k : settled R -> handler).

Inductive call : Type :=
  | Call (R : Type) (req : request R).

Inductive event : Type :=
  | Requested (c : call)
  | Updated (s : DesignState.t).

(** Runs a handler from the state [s], [n] requests having been made
    before; returns the events in order and the last state. *)
Fixpoint run (svc : Service) (h : handler) (n : nat) (s : DesignState.t)
  : list event * DesignState.t :=
  match h with
  | Return => ([], s)
  | setState f k =>
      let (tr, s') := run svc k n (f s) in (Updated (f s) :: tr, s')
  | await req k =>
      let (tr, s') := run svc (k (svc _ n req)) (S n) s in
      (Requested (Call req) :: tr, s')
  end.

Fixpoint calls (tr : list event) : list call :=
  match tr with
  | [] => []
  | Requested c :: tr' => c :: calls tr'
  | Updated _ :: tr' => calls tr'
  end.

Fixpoint states (tr : list event) : list DesignState.t :=
  match tr with
  | [] => []
  | Requested _ :: tr' => states tr'
  | Updated s :: tr' => s :: states tr'
  end.

(** [a || d] for a string or [undefined] on the left. *)
Definition or_else (a : option string) (d : string) : string :=
  match a with
  | Some EmptyString | None => d
  | Some s => s
  end.

Definition handleGenerate (location plotDimensions : string)
  (priority : Priority) (requirements : string) : handler :=
  if (location =? "")%string then Return
  else
    let failed (err : JsError) :=
      setState (fun prev =>
                  with_error (Some (or_else (message err) "Failed to generate design."))
                    (with_isGenerating false prev))
               Return in
    setState (fun prev =>
                with_previousFloorPlan None
                  (with_optimizationVerdict None
                     (with_refinement None
                        (with_error None (with_isGenerating true prev)))))
      (await (getClimateData location plotDimensions priority) (fun r =>
         match r with
         | Rejected err => failed err
         | Fulfilled climate =>
             await (generateDesign climate plotDimensions requirements) (fun r' =>
               match r' with
               | Rejected err => failed err
               | Fulfilled plan =>
                   setState (fun prev =>
                               with_history
                                 (history prev ++ ["Designed for " ++ location]%string)
                                 (with_isGenerating false
                                    (with_floorPlan (Some plan)
                                       (with_climate (Some climate) prev))))
                            Return
               end)
         end)).

(** [state] is the state of the render the handler was created in. *)
Definition handleRefine (state : DesignState.t) : handler :=
  match floorPlan state, climate state with
  | Some originalPlan, Some climate0 =>
      let failed :=
        setState (fun prev =>
                    with_error (Some "Optimization cycle failed. Please try again."%string)
                      (with_isEvaluating false (with_isRefining false prev)))
                 Return in
      setState (with_isRefining true)
        (await (refineDesign originalPlan climate0) (fun r =>
           match r with
           | Rejected _ => failed
           | Fulfilled refinement =>
               let revised := RefinementResult.revised_floor_plan refinement in
               setState (fun prev =>
                           with_history
                             (history prev
                                ++ ["Refined design for performance optimization"%string])
                             (with_floorPlan (Some revised)
                                (with_previousFloorPlan (Some originalPlan)
                                   (with_refinement (Some refinement)
                                      (with_isRefining false prev)))))
                 (setState (with_isEvaluating true)
                    (await (evaluateOptimization (FloorPlan.performanceMetrics revised))
                       (fun r' =>
                          match r' with
                          | Rejected _ => failed
                          | Fulfilled verdict =>
                              setState (fun prev =>
                                          with_optimizationVerdict (Some verdict)
                                            (with_isEvaluating false prev))
                                       Return
                          end)))
           end))
  | _, _ => Return
  end.

Definition handleRunDiagnostics (state : DesignState.t) : handler :=
  match floorPlan state with
  | None => Return
  | Some plan =>
      setState (with_isDiagnosing true)
        (await (getDiagnostics plan) (fun r =>
           match r with
           | Fulfilled diagnostics =>
               setState (fun prev =>
                           with_floorPlan
                             (match floorPlan prev with
                              | Some p => Some (with_diagnostics diagnostics p)
                              | None => None
                              end)
                             (with_isDiagnosing false prev))
                        Return
           | Rejected _ =>
               setState (fun prev =>
                           with_error (Some "Diagnostic audit failed."%string)
                             (with_isDiagnosing false prev))
                        Return
           end))
  end.

(** ** The three workflows, started by the user on the rendered state *)

Definition Generate (svc : Service) (n : nat)
  (location plotDimensions : string) (priority : Priority) (requirements : string)
  (s : DesignState.t) : list event * DesignState.t :=
  run svc (handleGenerate location plotDimensions priority requirements) n s.

Definition Refine (svc : Service) (n : nat) (s : DesignState.t)
  : list event * DesignState.t :=
  run svc (handleRefine s) n s.

Definition Diagnose (svc : Service) (n : nat) (s : DesignState.t)
  : list event * DesignState.t :=
  run svc (handleRunDiagnostics s) n s.

End App.

(* ===================================================================== *)
(** * Sample data *)
(* ===================================================================== *)

Module Sample.
Open Scope string_scope.

(** The double a decimal literal denotes: the one nearest to it. *)
Definition double (q : Q) : Q :=
  match JS.round64 q with
  | JS.Finite d => d
  | _ => 0
  end.

Definition room (name : string) (x y width height : Q) : Room.t :=
  {| Room.id := name; Room.name := name; Room.type := living;
     Room.x := x; Room.y := y; Room.width := width; Room.height := height;
     Room.windows := []; Room.reasoning := "" |}.

Definition metrics (a b c d : Q) : PerformanceMetrics.t :=
  {| PerformanceMetrics.naturalLightScore := a;
     PerformanceMetrics.ventilationEfficiency := b;
     PerformanceMetrics.thermalMassUtilization := c;
     PerformanceMetrics.solarControlRating := d |}.

Definition diagnostics (h : list HeatRiskZone.t) (a : list AirflowPath.t)
  (d : list DaylightZone.t) : ClimateDiagnostics.t :=
  {| ClimateDiagnostics.heat_risk := h;
     ClimateDiagnostics.airflow := a;
     ClimateDiagnostics.daylight := d |}.

Definition plan (title : string) (rooms : list Room.t) (d : ClimateDiagnostics.t)
  : FloorPlan.t :=
  {| FloorPlan.designTitle := title; FloorPlan.orientation := 0;
     FloorPlan.rooms := rooms; FloorPlan.totalArea := 0;
     FloorPlan.performanceMetrics := metrics (7 # 10) (8 # 10) (5 # 10) (6 # 10);
     FloorPlan.architectReasoning := "";
     FloorPlan.rejected_alternatives := [];
     FloorPlan.diagnostics := d |}.

Definition flow (from to : string) (s : Strength) : AirflowPath.t :=
  {| AirflowPath.from := from; AirflowPath.to := to; AirflowPath.strength := s |}.

(** A living room and a kitchen side by side, with one weak and one
    strong airflow path between them. *)
Definition two_rooms : FloorPlan.t :=
  plan "Two rooms"
    [ room "Living Room" 0 0 5 4; room "Kitchen" 5 0 3 4 ]
    (diagnostics []
       [ flow "Living Room" "Kitchen" weak; flow "Kitchen" "Living Room" strong ]
       []).

End Sample.

(* ===================================================================== *)
(** * Notions the properties are stated with *)
(* ===================================================================== *)

Module Reference.
Import JS FloorPlanViewer.

(** The key a room's centroid is recorded under. *)
Definition key (r : Room.t) : string := toLowerCase (Room.name r).

(** The last room of the plan recorded under [k]. *)
Definition lastNamed (plan : FloorPlan.t) (k : string) : option Room.t :=
  find (fun r => (key r =? k)%string) (rev (FloorPlan.rooms plan)).

(** Keys kept as own properties in the order of their creation: neither
    an array index nor [__proto__]. *)
Definition ordinary (k : string) : bool :=
  match array_index k with
  | Some _ => false
  | None => negb (k =? "__proto__")%string
  end.

Definition ordinary_names (plan : FloorPlan.t) : bool :=
  forallb (fun r => ordinary (key r)) (FloorPlan.rooms plan).

(** No code unit of the string is a capital. *)
Fixpoint lowercase (s : string) : bool :=
  match s with
  | EmptyString => true
  | String c s' => negb (is_upper c) && lowercase s'
  end.

(** The resolution as the specification words it: both strings trimmed
    and lowercased, an exact match first, otherwise the first room whose
    name contains the reference or is contained by it. *)
Definition normalize (s : string) : string := trim (toLowerCase s).

Definition resolve_as_specified (plan : FloorPlan.t) (roomRef : string)
  : option Room.t :=
  let ref := normalize roomRef in
  match find (fun r => (normalize (Room.name r) =? ref)%string) (FloorPlan.rooms plan) with
  | Some r => Some r
  | None =>
      find (fun r => related (normalize (Room.name r)) ref) (FloorPlan.rooms plan)
  end.

End Reference.

Module SamplePlans.
Import Sample.
Open Scope string_scope.

Definition master_bedroom : Room.t := room "Master Bedroom" 0 0 4 4.
Definition bedroom_room : Room.t := room "Bedroom" 4 0 3 3.

Definition bedroom_entry : HeatRiskZone.t :=
  {| HeatRiskZone.room := "Bedroom"; HeatRiskZone.level := high |}.

(** Two bedrooms and one heat-risk entry labelled with the exact name of
    the second. *)
Definition bedrooms : FloorPlan.t :=
  plan "Bedrooms" [ master_bedroom; bedroom_room ]
    (diagnostics [ bedroom_entry ] [] []).

(** The second room's name ends in a space. *)
Definition padded : FloorPlan.t :=
  plan "Padded" [ room "Kit" 0 0 2 2; room "Kitchen " 2 0 4 4 ]
    (diagnostics [] [] []).

(** Two rooms of the same name. *)
Definition twins : FloorPlan.t :=
  plan "Twins" [ room "Bath" 0 0 2 2; room "Bath" 5 0 2 2 ]
    (diagnostics [] [] []).

(** The second room's name is a numeral. *)
Definition numbered : FloorPlan.t :=
  plan "Numbered" [ room "Hall" 0 0 2 2; room "2" 5 0 2 2 ]
    (diagnostics [] [] []).

(** A single room, named after the prototype accessor. *)
Definition proto_only : FloorPlan.t :=
  plan "Proto" [ room "__proto__" 0 0 2 2 ] (diagnostics [] [] []).






(** The metrics 0, 0, 0.08 and 0.5. *)
Definition uneven : PerformanceMetrics.t :=
  metrics 0 0 (double (8 # 100)) (double (1 # 2)).

End SamplePlans.

Module Workflow.
Import App DesignState.

(** Every [setState] updater of the handler satisfies [P]. *)
Inductive every_update (P : (DesignState.t -> DesignState.t) -> Prop)
  : handler -> Prop :=
  | every_Return : every_update P Return
  | every_setState f k :
      P f -> every_update P k -> every_update P (setState f k)
  | every_await R (req : request R) k :
      (forall res, every_update P (k res)) -> every_update P (await req k).

(** The updater keeps the entries of the history log, in order, and at
    most adds entries at the end. *)
Definition appends (f : DesignState.t -> DesignState.t) : Prop :=
  forall s, exists l, history (f s) = history s ++ l.

(** A climate is stored and no floor plan is. *)
Definition climate_without_plan (s : DesignState.t) : Prop :=
  climate s <> None /\ floorPlan s = None.

(** The two plans agree on every field but [diagnostics]. *)
Definition same_but_diagnostics (p q : FloorPlan.t) : Prop :=
  FloorPlan.designTitle p = FloorPlan.designTitle q
  /\ FloorPlan.orientation p = FloorPlan.orientation q
  /\ FloorPlan.rooms p = FloorPlan.rooms q
  /\ FloorPlan.totalArea p = FloorPlan.totalArea q
  /\ FloorPlan.performanceMetrics p = FloorPlan.performanceMetrics q
  /\ FloorPlan.architectReasoning p = FloorPlan.architectReasoning q
  /\ FloorPlan.rejected_alternatives p = FloorPlan.rejected_alternatives q.

End Workflow.

Module SampleService.
Import App Sample.
Open Scope string_scope.

Definition phoenix : ClimateData.t :=
  {| ClimateData.location := "Phoenix";
     ClimateData.climateZone := "Hot arid";
     ClimateData.averageTemp := (12, 41);
     ClimateData.solarPotential := "Very high";
     ClimateData.prevailingWinds := "West";
     ClimateData.climate_challenges := ["Extreme summer heat"];
     ClimateData.design_strategies := ["Deep shading"; "Thermal mass"];
     ClimateData.orientation_guidance := "Long axis east-west";
     ClimateData.window_guidance := "Small west windows";
     ClimateData.zoning_guidance := "Buffer rooms on the west" |}.

Definition revised : FloorPlan.t :=
  plan "Two rooms, revised"
    [ room "Living Room" 0 0 5 4; room "Kitchen" 5 0 4 4 ]
    (diagnostics [] [] []).

Definition refined : RefinementResult.t :=
  {| RefinementResult.revised_floor_plan := revised;
     RefinementResult.changes_made := ["Widened the kitchen"];
     RefinementResult.expected_improvements :=
       {| ExpectedImprovements.heat := "Less west exposure";
          ExpectedImprovements.airflow := "Wider opening";
          ExpectedImprovements.heat_improvement_pct := 12;
          ExpectedImprovements.airflow_improvement_pct := 8 |} |}.

Definition verdict : OptimizationEvaluation.t :=
  {| OptimizationEvaluation.iterate := false;
     OptimizationEvaluation.recommended_adjustments := [];
     OptimizationEvaluation.expected_benefit := "Marginal" |}.

Definition audit : ClimateDiagnostics.t :=
  diagnostics
    [ {| HeatRiskZone.room := "Kitchen"; HeatRiskZone.level := medium |} ]
    [ flow "Kitchen" "Living Room" moderate ]
    [ {| DaylightZone.room := "Living Room"; DaylightZone.quality := high |} ].

Definition quota : JsError := {| message := Some "Quota exceeded" |}.

(** Every request succeeds. *)
Definition reliable : Service :=
  fun R n req =>
    match req in request T return settled T with
    | getClimateData _ _ _ => Fulfilled phoenix
    | generateDesign _ _ _ => Fulfilled two_rooms
    | refineDesign _ _ => Fulfilled refined
    | evaluateOptimization _ => Fulfilled verdict
    | getDiagnostics _ => Fulfilled audit
    end.

(** Design generation, refinement's evaluation and the audit fail. *)
Definition flaky : Service :=
  fun R n req =>
    match req in request T return settled T with
    | getClimateData _ _ _ => Fulfilled phoenix
    | generateDesign _ _ _ => Rejected quota
    | refineDesign _ _ => Fulfilled refined
    | evaluateOptimization _ => Rejected quota
    | getDiagnostics _ => Rejected quota
    end.

(** The state after a first successful Generate for Phoenix. *)
Definition designed : DesignState.t :=
  snd (Generate reliable 0 "Phoenix" "15m x 20m" cooling "3 bedrooms" initialState).

(** The state after a successful Refine of that design. *)
Definition optimized : DesignState.t := snd (Refine reliable 2 designed).

End SampleService.

Unset Implicit Arguments.

(* ===================================================================== *)
(** * The rest of the renderer, of the climate card and of the controller *)
(* ===================================================================== *)

(** ** FloorPlanViewer.tsx: the room layer *)

Module RoomLayer.
Import JS FloorPlanViewer.

Definition getRoomColor (type : RoomType) : string :=
  match type with
  | living => "fill-orange-50 stroke-orange-300"
  | bedroom => "fill-indigo-50 stroke-indigo-300"
  | kitchen => "fill-amber-50 stroke-amber-300"
  | bathroom => "fill-blue-50 stroke-blue-300"
  | buffer => "fill-emerald-50 stroke-emerald-300"
  | _ => "fill-slate-100 stroke-slate-400"
  end%string.




(** The levels in increasing order. *)
Definition rank (l : Level) : nat :=
  match l with
  | low => 0
  | medium => 1
  | high => 2
  end.

(** Every code unit of the string is white space. *)
Fixpoint blank (s : string) : bool :=
  match s with
  | EmptyString => true
  | String c s' => is_space c && blank s'
  end.

End RoomLayer.

(** ** ClimateCard.tsx: the radar and the numeric summary *)

Module ClimateSummary.
Import JS.







(** Every metric lies between 0 and 1. *)
Definition normalized (m : PerformanceMetrics.t) : Prop :=
  (0 <= PerformanceMetrics.naturalLightScore m <= 1
   /\ 0 <= PerformanceMetrics.ventilationEfficiency m <= 1
   /\ 0 <= PerformanceMetrics.thermalMassUtilization m <= 1
   /\ 0 <= PerformanceMetrics.solarControlRating m <= 1)%Q.


End ClimateSummary.

(** ** App.tsx: what is rendered from the state, and the event loop *)

Module Controls.
Import App DesignState.

Definition present {A : Type} (o : option A) : bool :=
  match o with Some _ => true | None => false end.

(** [disabled] of the three buttons. *)
Definition generateDisabled (s : DesignState.t) (location : string) : bool :=
  isGenerating s || isRefining s || (location =? "")%string.

Definition diagnoseDisabled (s : DesignState.t) : bool :=
  isDiagnosing s || isRefining s.

Definition refineDisabled (s : DesignState.t) : bool := isRefining s.

(** The Diagnostic Audit button sits in the block rendered under
    [state.floorPlan &&]; the Refine button also under
    [!state.refinement &&]. *)
Definition diagnoseShown (s : DesignState.t) : bool := present (floorPlan s).

Definition refineShown (s : DesignState.t) : bool :=
  present (floorPlan s) && negb (present (refinement s)).

Definition revisionLabel (s : DesignState.t) : string :=
  if present (refinement s) then "Optimized V2" else "Initial Draft".

(** [state.floorPlan.rooms.filter(r => r.reasoning).slice(0, 6)]. *)
Definition reasoningCards (plan : FloorPlan.t) : list Room.t :=
  firstn 6
    (filter (fun r => negb (Room.reasoning r =? "")%string) (FloorPlan.rooms plan)).

(** An async handler runs up to its next [await] without interruption. *)
Fixpoint sync (h : handler) (s : DesignState.t) : handler * DesignState.t :=
  match h with
  | setState f k => sync k (f s)
  | other => (other, s)
  end.

(** The promise a suspended handler waits for is settled with the answer
    to request number [n]. *)
Definition settle (svc : Service) (n : nat) (h : handler) : handler :=
  match h with
  | await req k => k (svc _ n req)
  | other => other
  end.

(** No workflow is in flight. *)
Definition idle (s : DesignState.t) : Prop :=
  isGenerating s = false /\ isRefining s = false
  /\ isEvaluating s = false /\ isDiagnosing s = false.

(** A floor plan is stored exactly when a climate is. *)
Definition paired (s : DesignState.t) : Prop :=
  present (floorPlan s) = present (climate s).

End Controls.

(* ===================================================================== *)
(** * Properties of the renderer's geometry *)
(* ===================================================================== *)

Section Geometry.
Import JS FloorPlanViewer Sample SamplePlans.

Lemma le_trans (a b c : number) : le a b -> le b c -> le a c.
Proof.
  destruct a, b, c; simpl; try tauto.
  apply Qle_trans.
Qed.


(** Rounding yields a double or an infinity. *)
Lemma round64_number (q : Q) : round64 q <> NaN.
Proof.
  unfold round64. destruct (Qnum q); cbv zeta; try discriminate;
    match goal with |- context [if ?c then _ else _] => destruct c end;
    discriminate.
Qed.

Lemma round64_zero (q : Q) : Qnum q = 0%Z -> round64 q = Finite 0.
Proof. intros E. unfold round64. rewrite E. reflexivity. Qed.

Lemma add_number (a : number) (q : Q) : a <> NaN -> add a (Finite q) <> NaN.
Proof.
  destruct a; simpl; try congruence. intros _. apply round64_number.
Qed.


Lemma mul_number (a : number) (q : Q) :
  (0 < q)%Q -> a <> NaN -> mul a (Finite q) <> NaN.
Proof.
  intros Hq. assert (sign q = Gt) as E.
  { unfold sign. apply Qgt_alt. exact Hq. }
  destruct a; simpl; try congruence; try rewrite E; try discriminate.
  intros _. apply round64_number.
Qed.









End Geometry.

(* ===================================================================== *)
(** * Properties of rounding to a double *)
(* ===================================================================== *)

Section Rounding.
Import JS.

Lemma nearest_even_floor (q : Q) :
  (Qfloor q <= nearest_even q <= Qfloor q + 1)%Z.
Proof.
  unfold nearest_even.
  destruct (q - inject_Z (Qfloor q) ?= 1 # 2)%Q; [destruct (Z.even (Qfloor q))| |]; lia.
Qed.

Lemma nearest_even_monotone (p q : Q) :
  (p <= q)%Q -> (nearest_even p <= nearest_even q)%Z.
Proof.
  intros Hpq.
  pose proof (Qfloor_resp_le _ _ Hpq) as Hf.
  pose proof (nearest_even_floor p) as Hp.
  pose proof (nearest_even_floor q) as Hq.
  destruct (Z.eq_dec (Qfloor p) (Qfloor q)) as [E|N]; [|lia].
  clear Hp Hq. unfold nearest_even. rewrite <- E.
  destruct (p - inject_Z (Qfloor p) ?= 1 # 2)%Q eqn:Cp;
    destruct (q - inject_Z (Qfloor p) ?= 1 # 2)%Q eqn:Cq;
    try (destruct (Z.even (Qfloor p))); try lia; exfalso;
    first [apply (proj2 (Qeq_alt _ _)) in Cp | apply (proj2 (Qlt_alt _ _)) in Cp
          | apply (proj2 (Qgt_alt _ _)) in Cp];
    first [apply (proj2 (Qeq_alt _ _)) in Cq | apply (proj2 (Qlt_alt _ _)) in Cq
          | apply (proj2 (Qgt_alt _ _)) in Cq];
    lra.
Qed.


Lemma floor_below (q : Q) (m : Z) : (q < inject_Z m)%Q -> (Qfloor q < m)%Z.
Proof.
  intros H. pose proof (Qfloor_le q) as L.
  rewrite Zlt_Qlt. lra.
Qed.

Lemma floor_above (q : Q) (m : Z) : (inject_Z m <= q)%Q -> (m <= Qfloor q)%Z.
Proof.
  intros H. apply Qfloor_resp_le in H. rewrite Qfloor_Z in H. exact H.
Qed.

Lemma power_positive (s : Z) : (0 <= s)%Z -> (0 < inject_Z (2 ^ s))%Q.
Proof.
  intros Hs. change 0%Q with (inject_Z 0). rewrite <- Zlt_Qlt.
  apply Z.pow_pos_nonneg; lia.
Qed.

(** Rounding to 53 significant bits is monotone on magnitudes. *)
Lemma round_quanta_monotone (t t' : Q) :
  (0 <= t)%Q -> (t <= t')%Q -> (round_quanta t <= round_quanta t')%Z.
Proof.
  intros H0 Hle. unfold round_quanta.
  set (n := Qfloor t). set (n' := Qfloor t').
  assert (0 <= n)%Z as Hn by (apply (floor_above t 0); exact H0).
  assert (n <= n')%Z as Hnn by (apply Qfloor_resp_le; exact Hle).
  pose proof (Z.log2_le_mono n n' Hnn) as Hlog.
  set (s := Z.max 0 (Z.log2 n - 52)). set (s' := Z.max 0 (Z.log2 n' - 52)).
  assert (0 <= s)%Z as Hs by lia.
  assert (0 <= s')%Z as Hs' by lia.
  assert (s <= s')%Z as Hss by lia.
  pose proof (power_positive s Hs) as Hd.
  pose proof (power_positive s' Hs') as Hd'.
  destruct (Z.eq_dec s s') as [E|N].
  - rewrite <- E. apply Z.mul_le_mono_nonneg_r; [apply Z.pow_nonneg; lia|].
    apply nearest_even_monotone.
    apply Qmult_le_compat_r; [exact Hle|].
    apply Qlt_le_weak, Qinv_lt_0_compat. exact Hd.
  - assert (s < s')%Z as Hlt by lia.
    assert (0 < n')%Z as Hn'.
    { destruct (Z.eq_dec n' 0) as [Z0|]; [|lia].
      subst s'. rewrite Z0 in Hlt. change (Z.log2 0) with 0%Z in Hlt. lia. }
    assert (s' = Z.log2 n' - 52)%Z as Es' by lia.
    (* the smaller magnitude rounds to at most 2^(53+s) *)
    assert (n < 2 ^ (53 + s))%Z as Hup.
    { destruct (Z.eq_dec n 0) as [Z0|Nz].
      - rewrite Z0. apply Z.pow_pos_nonneg; lia.
      - pose proof (Z.log2_spec n ltac:(lia)) as [_ Hhi].
        apply Z.lt_le_trans with (1 := Hhi).
        apply Z.pow_le_mono_r; lia. }
    assert (nearest_even (t / inject_Z (2 ^ s)) <= 2 ^ 53)%Z as Hk.
    { pose proof (nearest_even_floor (t / inject_Z (2 ^ s))) as [_ Hne].
      assert (Qfloor (t / inject_Z (2 ^ s)) < 2 ^ 53)%Z as Hfl; [|lia].
      apply floor_below. apply Qlt_shift_div_r; [exact Hd|].
      rewrite <- inject_Z_mult, <- Z.pow_add_r by lia.
      pose proof (Qlt_floor t) as Ht. fold n in Ht.
      apply Qlt_le_trans with (1 := Ht).
      rewrite <- Zle_Qle. lia. }
    (* the larger one to at least 2^(52+s') *)
    assert (2 ^ 52 <= nearest_even (t' / inject_Z (2 ^ s')))%Z as Hk'.
    { pose proof (nearest_even_floor (t' / inject_Z (2 ^ s'))) as [Hne _].
      assert (2 ^ 52 <= Qfloor (t' / inject_Z (2 ^ s')))%Z as Hfl; [|lia].
      apply floor_above. apply Qle_shift_div_l; [exact Hd'|].
      rewrite <- inject_Z_mult, <- Z.pow_add_r by lia.
      pose proof (Qfloor_le t') as Ht. fold n' in Ht.
      apply Qle_trans with (2 := Ht).
      rewrite <- Zle_Qle.
      pose proof (Z.log2_spec n' Hn') as [Hlo _].
      replace (52 + s')%Z with (Z.log2 n') by lia. exact Hlo. }
    apply Z.le_trans with (2 ^ 53 * 2 ^ s)%Z.
    + apply Z.mul_le_mono_nonneg_r; [apply Z.pow_nonneg; lia | exact Hk].
    + apply Z.le_trans with (2 ^ 52 * 2 ^ s')%Z.
      * rewrite <- !Z.pow_add_r by lia. apply Z.pow_le_mono_r; lia.
      * apply Z.mul_le_mono_nonneg_r; [apply Z.pow_nonneg; lia | exact Hk'].
Qed.


Lemma round_quanta_nonneg (t : Q) : (0 <= t)%Q -> (0 <= round_quanta t)%Z.
Proof.
  intros H0. unfold round_quanta.
  set (s := Z.max 0 (Z.log2 (Qfloor t) - 52)).
  assert (0 <= s)%Z as Hs by lia.
  pose proof (nearest_even_floor (t / inject_Z (2 ^ s))) as [Hne _].
  assert (0 <= Qfloor (t / inject_Z (2 ^ s)))%Z as Hfl.
  { apply floor_above. apply Qle_shift_div_l; [apply power_positive; exact Hs|].
    rewrite Qmult_0_l. exact H0. }
  apply Z.mul_nonneg_nonneg; [lia | apply Z.pow_nonneg; lia].
Qed.

Lemma quanta_positive : (0 < inject_Z quanta)%Q.
Proof. apply (power_positive 1074). lia. Qed.

Lemma round64_positive (q : Q) :
  (0 < q)%Q ->
  round64 q
  = if (2 ^ 2098 <=? round_quanta (q * inject_Z quanta))%Z then Infinity
    else Finite (Qred (inject_Z (round_quanta (q * inject_Z quanta))
                       / inject_Z quanta)).
Proof.
  destruct q as [[|n|n] d]; intros H;
    try (unfold Qlt in H; cbn [Qnum Qden] in H; lia).
  reflexivity.
Qed.

Lemma round64_negative (q : Q) :
  (q < 0)%Q ->
  round64 q
  = if (2 ^ 2098 <=? round_quanta (- q * inject_Z quanta))%Z then NegInfinity
    else Finite (Qred (- inject_Z (round_quanta (- q * inject_Z quanta))
                       / inject_Z quanta)).
Proof.
  destruct q as [[|n|n] d]; intros H;
    try (unfold Qlt in H; cbn [Qnum Qden] in H; lia).
  reflexivity.
Qed.

Lemma round64_null (q : Q) : q == 0 -> round64 q = Finite 0.
Proof.
  intros H. apply round64_zero. destruct q as [n d].
  unfold Qeq in H. simpl in *. lia.
Qed.

(** Rounding to the nearest double is monotone. *)
Lemma round64_monotone (p q : Q) : (p <= q)%Q -> le (round64 p) (round64 q).
Proof.
  intros Hpq. pose proof quanta_positive as HQ.
  destruct (Q_dec p 0) as [[Hp|Hp]|Hp], (Q_dec q 0) as [[Hq|Hq]|Hq];
    try (exfalso; lra);
    try rewrite (round64_negative p Hp); try rewrite (round64_positive p Hp);
    try rewrite (round64_null p Hp);
    try rewrite (round64_negative q Hq); try rewrite (round64_positive q Hq);
    try rewrite (round64_null q Hq);
    revert HQ; generalize (inject_Z quanta); intros Qz HQ.
  all: assert (forall k : Z, (0 <= k)%Z -> 0 <= Qred (inject_Z k / Qz))%Q as Hpos
    by (intros k Hk; rewrite Qred_correct; apply Qle_shift_div_l; [exact HQ|];
        rewrite Qmult_0_l; rewrite Zle_Qle in Hk; exact Hk).
  all: assert (forall k k' : Z, (k <= k')%Z ->
                 Qred (inject_Z k / Qz) <= Qred (inject_Z k' / Qz))%Q as Hmono
    by (intros k k' Hk; rewrite !Qred_correct;
        apply Qmult_le_compat_r; [rewrite <- Zle_Qle; exact Hk|];
        apply Qlt_le_weak, Qinv_lt_0_compat; exact HQ).
  all: assert (forall k : Z,
                 Qred (- inject_Z k / Qz) == - Qred (inject_Z k / Qz))%Q as Hopp
    by (intros k; rewrite !Qred_correct; field; lra).
  - (* both negative *)
    assert (round_quanta (- q * Qz) <= round_quanta (- p * Qz))%Z as Hk.
    { apply round_quanta_monotone; nra. }
    destruct (Z.leb_spec (2 ^ 2098) (round_quanta (- p * Qz)));
      destruct (Z.leb_spec (2 ^ 2098) (round_quanta (- q * Qz)));
      cbn [le]; trivial; try lia.
    rewrite !Hopp. apply Qopp_le_compat. apply Hmono. exact Hk.
  - assert (0 <= round_quanta (- p * Qz))%Z as Kp
      by (apply round_quanta_nonneg; nra).
    assert (0 <= round_quanta (q * Qz))%Z as Kq
      by (apply round_quanta_nonneg; nra).
    destruct (Z.leb_spec (2 ^ 2098) (round_quanta (- p * Qz)));
      destruct (Z.leb_spec (2 ^ 2098) (round_quanta (q * Qz)));
      cbn [le]; trivial.
    rewrite Hopp. pose proof (Hpos _ Kp). pose proof (Hpos _ Kq). lra.
  - assert (0 <= round_quanta (- p * Qz))%Z as Kp
      by (apply round_quanta_nonneg; nra).
    destruct (Z.leb_spec (2 ^ 2098) (round_quanta (- p * Qz)));
      cbn [le]; trivial.
    rewrite Hopp. pose proof (Hpos _ Kp). lra.
  - (* both positive *)
    assert (round_quanta (p * Qz) <= round_quanta (q * Qz))%Z as Hk.
    { apply round_quanta_monotone; nra. }
    destruct (Z.leb_spec (2 ^ 2098) (round_quanta (p * Qz)));
      destruct (Z.leb_spec (2 ^ 2098) (round_quanta (q * Qz)));
      cbn [le]; trivial; try lia.
    apply Hmono. exact Hk.
  - assert (0 <= round_quanta (q * Qz))%Z as Kq
      by (apply round_quanta_nonneg; nra).
    destruct (Z.leb_spec (2 ^ 2098) (round_quanta (q * Qz)));
      cbn [le]; trivial.
    apply (Hpos _ Kq).
  - cbn [le]. lra.
Qed.

Lemma nearest_even_error (q : Q) :
  (q - (1 # 2) <= inject_Z (nearest_even q) <= q + (1 # 2))%Q.
Proof.
  unfold nearest_even.
  pose proof (Qfloor_le q) as Hlo. pose proof (Qlt_floor q) as Hhi.
  rewrite inject_Z_plus in Hhi. change (inject_Z 1) with 1%Q in Hhi.
  destruct (q - inject_Z (Qfloor q) ?= 1 # 2)%Q eqn:C;
    [apply (proj2 (Qeq_alt _ _)) in C | apply (proj2 (Qlt_alt _ _)) in C
     | apply (proj2 (Qgt_alt _ _)) in C];
    try destruct (Z.even (Qfloor q));
    try (rewrite inject_Z_plus; change (inject_Z 1) with 1%Q); split; lra.
Qed.

(** A magnitude moves by at most half a quantum, or by at most one part
    in 2^53 of itself, when it is rounded. *)
Lemma round_quanta_error (t : Q) :
  (0 <= t)%Q ->
  (t - ((1 # 2) + t * (1 # 2 ^ 53)) <= inject_Z (round_quanta t)
   <= t + ((1 # 2) + t * (1 # 2 ^ 53)))%Q.
Proof.
  intros H0. unfold round_quanta.
  set (n := Qfloor t).
  assert (0 <= n)%Z as Hn by (apply (floor_above t 0); exact H0).
  set (s := Z.max 0 (Z.log2 n - 52)).
  assert (0 <= s)%Z as Hs by lia.
  pose proof (power_positive s Hs) as Hd.
  assert (inject_Z (2 ^ s) == 1 \/ inject_Z (2 ^ s) * inject_Z (2 ^ 52) <= t)%Q as Hsize.
  { destruct (Z.eq_dec s 0) as [E|N].
    - left. rewrite E. reflexivity.
    - right. assert (s = Z.log2 n - 52)%Z as Es by lia.
      assert (0 < n)%Z as Hpos.
      { destruct (Z.eq_dec n 0) as [Z0|]; [|lia].
        rewrite Z0 in Es. change (Z.log2 0) with 0%Z in Es. lia. }
      rewrite <- inject_Z_mult, <- Z.pow_add_r by lia.
      apply Qle_trans with (inject_Z n); [|apply Qfloor_le].
      rewrite <- Zle_Qle. replace (s + 52)%Z with (Z.log2 n) by lia.
      apply (Z.log2_spec n Hpos). }
  pose proof (nearest_even_error (t / inject_Z (2 ^ s))) as Hne.
  rewrite inject_Z_mult.
  assert (t == t / inject_Z (2 ^ s) * inject_Z (2 ^ s))%Q as Et
    by (field; lra).
  change (inject_Z (2 ^ 52)) with (4503599627370496 # 1)%Q in Hsize.
  change (1 # 2 ^ 53)%Q with (1 # 9007199254740992)%Q.
  revert Hd Hsize Hne Et.
  generalize (inject_Z (nearest_even (t / inject_Z (2 ^ s)))).
  generalize (t / inject_Z (2 ^ s))%Q.
  generalize (inject_Z (2 ^ s)).
  intros D x N Hd Hsize Hne Et.
  destruct Hsize as [E1|Hbig]; split; nra.
Qed.


Lemma quanta_large : (576460752303423488 <= inject_Z quanta)%Q.
Proof.
  change (576460752303423488)%Q with (inject_Z (2 ^ 59)).
  rewrite <- Zle_Qle. unfold quanta. apply Z.pow_le_mono_r; lia.
Qed.

(** Up to 1024 a sum, product or quotient that is not negative is rounded
    to a double that is not negative, and moves by at most one part in
    2^53 of itself (and 2^-60, which covers the subnormal range). *)
Lemma round64_error (q : Q) :
  (0 <= q <= 1024)%Q ->
  exists r : Q,
    round64 q = Finite r
    /\ (0 <= r)%Q
    /\ (q - (q * (1 # 2 ^ 53) + (1 # 2 ^ 60)) <= r)%Q
    /\ (r <= q + (q * (1 # 2 ^ 53) + (1 # 2 ^ 60)))%Q.
Proof.
  intros [H0 Hb].
  change (1 # 2 ^ 53)%Q with (1 # 9007199254740992)%Q.
  change (1 # 2 ^ 60)%Q with (1 # 1152921504606846976)%Q.
  destruct (Qlt_le_dec 0 q) as [Hpos|Hzero].
  - assert (le (round64 q) (round64 1024)) as Hfin
      by (apply round64_monotone; exact Hb).
    assert (round64 1024 = Finite 1024) as E by (vm_compute; reflexivity).
    rewrite E in Hfin. rewrite (round64_positive q Hpos) in *.
    pose proof (round_quanta_error (q * inject_Z quanta)) as Herr.
    pose proof quanta_positive as HQ. pose proof quanta_large as HL.
    change (1 # 2 ^ 53)%Q with (1 # 9007199254740992)%Q in Herr.
    destruct (Z.leb_spec (2 ^ 2098) (round_quanta (q * inject_Z quanta)));
      [contradiction|].
    assert (0 <= inject_Z (round_quanta (q * inject_Z quanta)))%Q as Hk.
    { change 0%Q with (inject_Z 0). rewrite <- Zle_Qle.
      apply round_quanta_nonneg. apply Qmult_le_0_compat; lra. }
    eexists. split; [reflexivity|].
    rewrite Qred_correct.
    revert Herr Hk HQ HL.
    generalize (inject_Z (round_quanta (q * inject_Z quanta))).
    generalize (inject_Z quanta).
    intros Qz k Herr Hk HQ HL.
    assert (0 <= q * Qz)%Q as Ht by nra.
    destruct (Herr Ht) as [Hlo Hhi].
    split; [|split].
    + apply Qle_shift_div_l; [exact HQ|]. nra.
    + apply Qle_shift_div_l; [exact HQ|]. nra.
    + apply Qle_shift_div_r; [exact HQ|]. nra.
  - exists 0. split; [apply round64_null; lra|].
    split; [lra | split; lra].
Qed.


(** The same below a bound that is itself a double: the rounded value
    stays below the bound. *)
Lemma rounded_within (q B : Q) :
  (0 <= q <= B)%Q -> (B <= 1024)%Q -> round64 B = Finite B ->
  exists r : Q,
    round64 q = Finite r
    /\ (0 <= r <= B)%Q
    /\ (q - (B * (1 # 2 ^ 53) + (1 # 2 ^ 60)) <= r)%Q
    /\ (r <= q + (B * (1 # 2 ^ 53) + (1 # 2 ^ 60)))%Q.
Proof.
  intros [H0 Hq] HB EB.
  destruct (round64_error q) as (r & E & Hr & Hlo & Hhi); [split; lra|].
  pose proof (round64_monotone q B Hq) as Hm.
  rewrite E, EB in Hm. cbn [le] in Hm.
  change (1 # 2 ^ 53)%Q with (1 # 9007199254740992)%Q in *.
  change (1 # 2 ^ 60)%Q with (1 # 1152921504606846976)%Q in *.
  exists r. split; [exact E|]. split; [split; assumption|]. split; nra.
Qed.

End Rounding.

(* ===================================================================== *)
(** * Properties of the climate card *)
(* ===================================================================== *)

Section Score.
Import JS Sample SamplePlans.

(** [Math.round] returns the integer within one half of its argument,
    the upper one at a tie. *)
Lemma Math_round_nearest (q : Q) :
  (inject_Z (Math_round q) - (1 # 2) <= q)%Q
  /\ (q < inject_Z (Math_round q) + (1 # 2))%Q.
Proof.
  unfold Math_round.
  pose proof (Qfloor_le (q + (1 # 2))) as Hlo.
  pose proof (Qlt_floor (q + (1 # 2))) as Hhi.
  rewrite inject_Z_plus in Hhi.
  change (inject_Z 1) with 1%Q in Hhi.
  split; lra.
Qed.

Lemma div_number (a : number) (q : Q) :
  (0 < q)%Q -> a <> NaN -> div a q <> NaN.
Proof.
  intros Hq. assert (sign q = Gt) as E.
  { unfold sign. apply Qgt_alt. exact Hq. }
  destruct a; simpl; try congruence; try rewrite E; try discriminate.
  intros _. apply round64_number.
Qed.

(** C8 as the specification words it fails on the exact mean.  For the
    metrics 0, 0, 0.08 and 0.5 the program computes 14.499999999999998
    and shows 14; the mean times 100 is above 14.5 and rounds to 15. *)
Lemma score_differs_from_rounded_mean :
  ClimateCardNumbers.overallPassiveEfficiency (Some uneven) = Some (Finite 14)
  /\ Math_round
       ((PerformanceMetrics.naturalLightScore uneven
         + PerformanceMetrics.ventilationEfficiency uneven
         + PerformanceMetrics.thermalMassUtilization uneven
         + PerformanceMetrics.solarControlRating uneven) / 4 * 100) = 15%Z.
Proof. split; vm_compute; reflexivity. Qed.

(** For metrics between 0 and 1 the score the program shows lies between
    0 and 100 and is at most one away from the rounded exact mean times
    100: the five rounded operations move the value by less than
    2^-40. *)
Lemma score_is_close_to_rounded_mean (m : PerformanceMetrics.t) :
  ClimateSummary.normalized m ->
  exists n n' : Z,
    ClimateCardNumbers.overallPassiveEfficiency (Some m) = Some (Finite (inject_Z n))
    /\ ClimateCard.overallPassiveEfficiency (Some m) = Some n'
    /\ (0 <= n <= 100)%Z
    /\ (n' - 1 <= n <= n' + 1)%Z.
Proof.
  intros (Ha & Hb & Hc & Hd).
  unfold ClimateCardNumbers.overallPassiveEfficiency, ClimateCardNumbers.avgScore,
    ClimateCard.overallPassiveEfficiency, ClimateCard.avgScore.
  revert Ha Hb Hc Hd.
  generalize (PerformanceMetrics.naturalLightScore m).
  generalize (PerformanceMetrics.ventilationEfficiency m).
  generalize (PerformanceMetrics.thermalMassUtilization m).
  generalize (PerformanceMetrics.solarControlRating m).
  intros d c b a Ha Hb Hc Hd.
  unfold add at 3.
  destruct (rounded_within (a + b) 2) as (r1 & E1 & B1 & L1 & U1);
    [split; lra | lra | vm_compute; reflexivity |].
  rewrite E1. unfold add at 2.
  destruct (rounded_within (r1 + c) 3) as (r2 & E2 & B2 & L2 & U2);
    [split; lra | lra | vm_compute; reflexivity |].
  rewrite E2. unfold add.
  destruct (rounded_within (r2 + d) 4) as (r3 & E3 & B3 & L3 & U3);
    [split; lra | lra | vm_compute; reflexivity |].
  rewrite E3. unfold div.
  destruct (rounded_within (r3 / 4) 1) as (r4 & E4 & B4 & L4 & U4);
    [split; [apply Qle_shift_div_l; lra | apply Qle_shift_div_r; lra]
    | lra | vm_compute; reflexivity |].
  rewrite E4. unfold mul.
  destruct (rounded_within (r4 * 100) 100) as (v & E5 & B5 & L5 & U5);
    [split; lra | lra | vm_compute; reflexivity |].
  rewrite E5. cbn [Math_round_number].
  exists (Math_round v), (Math_round ((a + b + c + d) / 4 * 100)).
  split; [reflexivity|]. split; [reflexivity|].
  pose proof (Math_round_nearest v) as [Nl Nu].
  pose proof (Math_round_nearest ((a + b + c + d) / 4 * 100)) as [Ml Mu].
  assert ((a + b + c + d) / 4 * 100 == (a + b + c + d) * 25)%Q as Em by field.
  assert (r3 / 4 == r3 * (1 # 4))%Q as Eq4 by field.
  rewrite Eq4 in L4, U4.
  change (1 # 2 ^ 53)%Q with (1 # 9007199254740992)%Q in *.
  change (1 # 2 ^ 60)%Q with (1 # 1152921504606846976)%Q in *.
  revert Nl Nu Ml Mu.
  generalize (Math_round v). generalize (Math_round ((a + b + c + d) / 4 * 100)).
  intros n' n Nl Nu Ml Mu.
  rewrite Em in Ml, Mu.
  assert (-1 < inject_Z n < 101)%Q as Hrange by (split; lra).
  assert (-2 < inject_Z n - inject_Z n' < 2)%Q as Hdiff by (split; lra).
  destruct Hrange as [R1 R2]. destruct Hdiff as [D1 D2].
  assert (-1 < n)%Z as R1' by (rewrite Zlt_Qlt; exact R1).
  assert (n < 101)%Z as R2' by (rewrite Zlt_Qlt; exact R2).
  assert (n' < n + 2)%Z as D1'.
  { rewrite Zlt_Qlt, inject_Z_plus. change (inject_Z 2) with 2%Q. lra. }
  assert (n < n' + 2)%Z as D2'.
  { rewrite Zlt_Qlt, inject_Z_plus. change (inject_Z 2) with 2%Q. lra. }
  lia.
Qed.


(** C8, as amended.  For every set of four performance metrics, the
    overall score shown is [Math.round] of the double the program
    computes for ((naturalLightScore + ventilationEfficiency +
    thermalMassUtilization + solarControlRating) / 4) * 100, the three
    sums, the quotient and the product each rounded to the nearest
    double: never [NaN], the integer nearest to that double, the upper
    one at a tie, and an infinity when the computation overflows.  For
    metrics between 0 and 1 it lies between 0 and 100 and differs by at
    most one from the rounded value of the exact mean times 100. *)
Theorem overall_score_rounds_the_computed_mean (m : PerformanceMetrics.t) :
  let sum :=
    add (add (add (Finite (PerformanceMetrics.naturalLightScore m))
                  (Finite (PerformanceMetrics.ventilationEfficiency m)))
             (Finite (PerformanceMetrics.thermalMassUtilization m)))
        (Finite (PerformanceMetrics.solarControlRating m)) in
  let v := mul (div sum 4) (Finite 100) in
  ClimateCardNumbers.overallPassiveEfficiency (Some m) = Some (Math_round_number v)
  /\ match v with
     | Finite q =>
         exists n : Z,
           Math_round_number v = Finite (inject_Z n)
           /\ (inject_Z n - (1 # 2) <= q)%Q
           /\ (q < inject_Z n + (1 # 2))%Q
     | Infinity => Math_round_number v = Infinity
     | NegInfinity => Math_round_number v = NegInfinity
     | NaN => False
     end
  /\ (ClimateSummary.normalized m ->
      exists n n' : Z,
        Math_round_number v = Finite (inject_Z n)
        /\ Math_round
             ((PerformanceMetrics.naturalLightScore m
               + PerformanceMetrics.ventilationEfficiency m
               + PerformanceMetrics.thermalMassUtilization m
               + PerformanceMetrics.solarControlRating m) / 4 * 100) = n'
        /\ (0 <= n <= 100)%Z
        /\ (n' - 1 <= n <= n' + 1)%Z).
Proof.
  intros sum v. split; [reflexivity|]. split.
  - assert (v <> NaN) as Hv.
    { subst v sum. apply mul_number; [reflexivity|].
      apply div_number; [reflexivity|].
      apply add_number. apply add_number. apply round64_number. }
    destruct v as [| |q|]; [congruence | reflexivity | | reflexivity].
    exists (Math_round q). split; [reflexivity | apply Math_round_nearest].
  - intros Hm.
    destruct (score_is_close_to_rounded_mean m Hm) as (n & n' & E & E' & Hr & Hd).
    exists n, n'.
    split; [injection E as E; exact E|].
    split; [injection E' as E'; exact E'|].
    split; assumption.
Qed.

Lemma overall_score_rounds_the_computed_mean_witness :
  ClimateSummary.normalized uneven
  /\ ClimateCardNumbers.overallPassiveEfficiency (Some uneven) = Some (Finite 14)
  /\ exists n' : Z,
       Math_round
         ((PerformanceMetrics.naturalLightScore uneven
           + PerformanceMetrics.ventilationEfficiency uneven
           + PerformanceMetrics.thermalMassUtilization uneven
           + PerformanceMetrics.solarControlRating uneven) / 4 * 100) = n'
       /\ (n' - 1 <= 14 <= n' + 1)%Z.
Proof.
  assert (ClimateSummary.normalized uneven) as Hm.
  { unfold ClimateSummary.normalized.
    repeat split; vm_compute; discriminate. }
  split; [exact Hm|].
  destruct (overall_score_rounds_the_computed_mean uneven) as (E & _ & Close).
  split; [rewrite E; vm_compute; reflexivity|].
  destruct (Close Hm) as (n & n' & En & En' & _ & Hd).
  exists n'. split; [exact En'|].
  assert (n = 14%Z) as ->; [|exact Hd].
  assert (Math_round_number
            (mul (div (add (add (add (Finite (PerformanceMetrics.naturalLightScore uneven))
                                     (Finite (PerformanceMetrics.ventilationEfficiency uneven)))
                                (Finite (PerformanceMetrics.thermalMassUtilization uneven)))
                           (Finite (PerformanceMetrics.solarControlRating uneven))) 4)
                 (Finite 100))
          = Finite (inject_Z 14)) as E14 by (vm_compute; reflexivity).
  rewrite E14 in En. injection En as En. exact (eq_sym En).
Defined.

End Score.

(* ===================================================================== *)
(** * Properties of the string operations *)
(* ===================================================================== *)

Section Strings.
Import JS.

Lemma prefix_append (t s : string) :
  String.prefix t s = true <-> exists b, s = (t ++ b)%string.
Proof.
  revert s. induction t as [|c t IH]; intros s; simpl.
  - split; [intros _; exists s; reflexivity | intros _; destruct s; reflexivity].
  - destruct s as [|d s]; simpl.
    + split; [discriminate | intros [b Hb]; discriminate].
    + destruct (ascii_dec c d) as [->|N].
      * rewrite IH. split; intros [b Hb]; exists b; congruence.
      * split; [discriminate | intros [b Hb]; congruence].
Qed.

(** [includes s t] holds exactly when [t] occurs inside [s]. *)
Lemma includes_occurs (s t : string) :
  includes s t = true <-> exists a b, s = (a ++ t ++ b)%string.
Proof.
  induction s as [|c s IH].
  - change (includes EmptyString t) with (String.prefix t EmptyString || false).
    rewrite orb_false_r, prefix_append. split.
    + intros [b Hb]. exists EmptyString, b. exact Hb.
    + intros (a & b & H). destruct a; [exists b; exact H|discriminate].
  - change (includes (String c s) t)
      with (String.prefix t (String c s) || includes s t).
    rewrite orb_true_iff, prefix_append, IH. split.
    + intros [[b Hb]|(a & b & H)].
      * exists EmptyString, b. exact Hb.
      * exists (String c a), b. simpl. congruence.
    + intros (a & b & H). destruct a as [|c' a]; simpl in H.
      * left. exists b. exact H.
      * right. exists a, b. congruence.
Qed.

(** The partial match of [findCentroid] and of the overlays: one string
    occurs inside the other. *)
Lemma related_occurs (key ref : string) :
  FloorPlanViewer.related key ref = true
  <-> (exists a b, key = (a ++ ref ++ b)%string)
      \/ (exists a b, ref = (a ++ key ++ b)%string).
Proof.
  unfold FloorPlanViewer.related.
  rewrite orb_true_iff, !includes_occurs. reflexivity.
Qed.

End Strings.

(* ===================================================================== *)
(** * Properties of the centroid map *)
(* ===================================================================== *)

Section OwnProperties.
Import JS FloorPlanViewer Reference.
Variable V : Type.
Implicit Types (k : string) (v : V) (l : list (string * V)).

Lemma lookup_replace k k' v l :
  lookup k (replace k' v l)
  = if (k =? k')%string
    then match lookup k' l with Some _ => Some v | None => None end
    else lookup k l.
Proof.
  induction l as [|[k1 v1] l IH]; simpl.
  - destruct (k =? k')%string; reflexivity.
  - destruct (String.eqb_spec k' k1) as [E1|N1]; simpl.
    + subst k1. destruct (String.eqb_spec k k') as [E|N]; reflexivity.
    + rewrite IH.
      destruct (String.eqb_spec k k') as [E|N].
      * subst k. destruct (String.eqb_spec k' k1); [congruence | reflexivity].
      * reflexivity.
Qed.

Lemma lookup_app k l l' :
  lookup k (l ++ l')
  = match lookup k l with Some v => Some v | None => lookup k l' end.
Proof.
  induction l as [|[k1 v1] l IH]; simpl; [reflexivity|].
  destruct (k =? k1)%string; [reflexivity | exact IH].
Qed.

Lemma define_ordinary k v l :
  ordinary k = true ->
  define k v l
  = match lookup k l with
    | Some _ => replace k v l
    | None => l ++ [(k, v)]
    end.
Proof.
  unfold ordinary, define. intros H.
  destruct (lookup k l); [reflexivity|].
  destruct (array_index k); [discriminate | reflexivity].
Qed.

Lemma lookup_define k k' v l :
  ordinary k' = true ->
  lookup k (define k' v l) = if (k =? k')%string then Some v else lookup k l.
Proof.
  intros H. rewrite (define_ordinary _ _ _ H).
  destruct (lookup k' l) eqn:E.
  - rewrite lookup_replace, E. reflexivity.
  - rewrite lookup_app. simpl.
    destruct (String.eqb_spec k k') as [->|N].
    + rewrite E. reflexivity.
    + destruct (lookup k l); reflexivity.
Qed.

Variable P : string -> bool.

Lemma find_replace k v l :
  find (fun e => P (fst e)) (replace k v l)
  = option_map (fun e => if (k =? fst e)%string then (fst e, v) else e)
      (find (fun e => P (fst e)) l).
Proof.
  induction l as [|[k1 v1] l IH]; simpl; [reflexivity|].
  destruct (String.eqb_spec k k1) as [E|N]; simpl.
  - subst k1. destruct (P k) eqn:Pk; simpl.
    + rewrite String.eqb_refl. reflexivity.
    + destruct (find (fun e => P (fst e)) l) as [e|] eqn:F; simpl; [|reflexivity].
      apply find_some in F. destruct F as [_ F].
      destruct (String.eqb_spec k (fst e)) as [E|_]; [|reflexivity].
      rewrite <- E in F. congruence.
  - destruct (P k1) eqn:Pk; simpl.
    + destruct (String.eqb_spec k k1); [congruence | reflexivity].
    + exact IH.
Qed.

Lemma find_snoc (A : Type) (Q : A -> bool) (l : list A) (a : A) :
  find Q (l ++ [a])
  = match find Q l with
    | Some b => Some b
    | None => if Q a then Some a else None
    end.
Proof.
  induction l as [|b l IH]; simpl; [reflexivity|].
  destruct (Q b); [reflexivity | exact IH].
Qed.

End OwnProperties.

Section Table.
Import JS FloorPlanViewer Reference.
Variable V : Type.
Variable f : Room.t -> V.

Lemma ordinary_not_proto k : ordinary k = true -> (k =? "__proto__")%string = false.
Proof.
  unfold ordinary. destruct (array_index k); [discriminate|].
  destruct (k =? "__proto__")%string; [discriminate | reflexivity].
Qed.

Lemma assign_ordinary (rooms : list Room.t) :
  forallb (fun r => ordinary (key r)) rooms = true ->
  forall o : object V,
    fold_left (fun c r => assign c (key r) (f r)) rooms o
    = {| prototype := prototype o;
         own := fold_left (fun l r => define (key r) (f r) l) rooms (own o) |}.
Proof.
  induction rooms as [|r rooms IH]; simpl; intros H o.
  - destruct o; reflexivity.
  - apply andb_true_iff in H. destruct H as [Hr H].
    rewrite (IH H). unfold assign.
    rewrite (ordinary_not_proto _ Hr). reflexivity.
Qed.

Lemma forallb_snoc (A : Type) (Q : A -> bool) (l : list A) (a : A) :
  forallb Q (l ++ [a]) = true -> forallb Q l = true /\ Q a = true.
Proof.
  rewrite forallb_app. simpl. rewrite andb_true_r.
  apply andb_true_iff.
Qed.

Lemma lookup_recorded (rooms : list Room.t) :
  forallb (fun r => ordinary (key r)) rooms = true ->
  forall k,
    lookup k (fold_left (fun l r => define (key r) (f r) l) rooms [])
    = option_map f (find (fun r => (key r =? k)%string) (rev rooms)).
Proof.
  induction rooms as [|r rooms IH] using rev_ind; intros H k.
  - reflexivity.
  - apply forallb_snoc in H. destruct H as [H Hr].
    rewrite fold_left_app, rev_app_distr. simpl.
    rewrite (lookup_define _ _ _ _ _ Hr).
    rewrite (String.eqb_sym k).
    destruct (key r =? k)%string; [reflexivity | apply IH; exact H].
Qed.

Lemma find_first_has_last (rooms : list Room.t) (Q : Room.t -> bool) (r0 : Room.t) :
  find Q rooms = Some r0 ->
  exists r1, find (fun r => (key r =? key r0)%string) (rev rooms) = Some r1.
Proof.
  intros F. apply find_some in F. destruct F as [Hin _].
  destruct (find (fun r => (key r =? key r0)%string) (rev rooms)) as [r1|] eqn:E.
  - exists r1. reflexivity.
  - exfalso. apply in_rev in Hin.
    pose proof (find_none _ _ E r0 Hin) as N. simpl in N.
    rewrite String.eqb_refl in N. discriminate.
Qed.

Variable P : string -> bool.

Lemma find_recorded (rooms : list Room.t) :
  forallb (fun r => ordinary (key r)) rooms = true ->
  find (fun e => P (fst e))
       (fold_left (fun l r => define (key r) (f r) l) rooms [])
  = match find (fun r => P (key r)) rooms with
    | Some r0 =>
        option_map (fun r => (key r0, f r))
          (find (fun r => (key r =? key r0)%string) (rev rooms))
    | None => None
    end.
Proof.
  induction rooms as [|r rooms IH] using rev_ind; intros H.
  - reflexivity.
  - apply forallb_snoc in H. destruct H as [H Hr].
    specialize (IH H).
    pose proof (lookup_recorded rooms H (key r)) as Hlook.
    rewrite fold_left_app, rev_app_distr, find_snoc. simpl.
    rewrite (define_ordinary _ _ _ _ Hr).
    set (L := fold_left (fun l r => define (key r) (f r) l) rooms []) in *.
    destruct (lookup (key r) L) as [old|] eqn:E.
    + (* the key exists: its value is replaced in place *)
      rewrite find_replace, IH.
      destruct (find (fun r => P (key r)) rooms) as [r0|] eqn:F; simpl.
      * destruct (find_first_has_last _ _ _ F) as [r1 F1]. rewrite F1. simpl.
        destruct (key r =? key r0)%string; reflexivity.
      * destruct (find (fun r' => (key r' =? key r)%string) (rev rooms))
          as [r1|] eqn:F1; [|discriminate].
        apply find_some in F1. destruct F1 as [Hin Hk].
        apply String.eqb_eq in Hk. apply in_rev in Hin.
        rewrite <- Hk, (find_none _ _ F r1 Hin). reflexivity.
    + (* a new key goes to the end *)
      rewrite find_snoc, IH. simpl.
      destruct (find (fun r => P (key r)) rooms) as [r0|] eqn:F; simpl.
      * destruct (find_first_has_last _ _ _ F) as [r1 F1]. rewrite F1. simpl.
        destruct (String.eqb_spec (key r) (key r0)) as [Ek|_]; [|reflexivity].
        exfalso. rewrite Ek, F1 in Hlook. discriminate.
      * destruct (P (key r)); [|reflexivity].
        rewrite String.eqb_refl. reflexivity.
Qed.

End Table.

Section Resolution.
Import JS FloorPlanViewer Reference.

Lemma lower_char_not_upper (c : ascii) : is_upper (lower_char c) = false.
Proof.
  destruct c as [[] [] [] [] [] [] [] []]; vm_compute; reflexivity.
Qed.

Lemma toLowerCase_lowercase (s : string) : lowercase (toLowerCase s) = true.
Proof.
  induction s as [|c s IH]; simpl; [reflexivity|].
  rewrite lower_char_not_upper, IH. reflexivity.
Qed.

Lemma trimStart_lowercase (s : string) :
  lowercase s = true -> lowercase (trimStart s) = true.
Proof.
  induction s as [|c s IH]; simpl; intros H; [reflexivity|].
  destruct (is_space c); [|exact H].
  apply andb_true_iff in H. apply IH, H.
Qed.

Lemma trimEnd_lowercase (s : string) :
  lowercase s = true -> lowercase (trimEnd s) = true.
Proof.
  induction s as [|c s IH]; simpl; intros H; [reflexivity|].
  apply andb_true_iff in H. destruct H as [Hc Hs].
  specialize (IH Hs).
  destruct (trimEnd s) as [|c' t].
  - destruct (is_space c); simpl; [reflexivity|].
    rewrite Hc. reflexivity.
  - change (lowercase (String c (String c' t)))
      with (negb (is_upper c) && lowercase (String c' t)).
    rewrite Hc, IH. reflexivity.
Qed.

Lemma normalized_lowercase (s : string) : lowercase (trim (toLowerCase s)) = true.
Proof.
  apply trimEnd_lowercase, trimStart_lowercase, toLowerCase_lowercase.
Qed.

(** Of the methods of [Object.prototype] only [constructor] is written
    without a capital. *)
Lemma lowercase_method (k : string) :
  lowercase k = true -> is_method k = true -> k = "constructor"%string.
Proof.
  intros L M. unfold is_method in M. simpl in M.
  repeat match type of M with
         | (?a || ?b)%bool = true =>
             apply orb_true_iff in M; destruct M as [M|M]
         end;
    try discriminate;
    apply String.eqb_eq in M; subst k;
    solve [reflexivity | vm_compute in L; discriminate].
Qed.

Lemma inherited_nothing (proto : value) (k : string) :
  lowercase k = true ->
  k <> "constructor"%string -> k <> "__proto__"%string ->
  inherited proto k = Undefined.
Proof.
  intros L Hc Hp. unfold inherited.
  destruct (String.eqb_spec k "__proto__"); [contradiction|].
  destruct (is_method k) eqn:M; [|reflexivity].
  elim Hc. apply lowercase_method; assumption.
Qed.

Lemma roomCentroids_ordinary (plan : FloorPlan.t) :
  ordinary_names plan = true ->
  roomCentroids plan
  = {| prototype := None;
       own := fold_left (fun l r => define (key r) (centroid plan r) l)
                (FloorPlan.rooms plan) [] |}.
Proof.
  intros H. unfold roomCentroids.
  exact (assign_ordinary _ (centroid plan) (FloorPlan.rooms plan) H (empty _)).
Qed.

(** What [findCentroid] returns on a plan whose room names are ordinary
    keys, for a reference that names no member of [Object.prototype]. *)
Lemma findCentroid_ordinary (plan : FloorPlan.t) (roomRef : string) :
  let ref := trim (toLowerCase roomRef) in
  ordinary_names plan = true ->
  ref <> "constructor"%string -> ref <> "__proto__"%string ->
  findCentroid plan roomRef
  = match lastNamed plan ref with
    | Some r => Object (centroid plan r)
    | None =>
        match find (fun r => related (key r) ref) (FloorPlan.rooms plan) with
        | Some r0 =>
            match lastNamed plan (key r0) with
            | Some r1 => Object (centroid plan r1)
            | None => Undefined
            end
        | None => Undefined
        end
    end.
Proof.
  intros ref H Hc Hp. unfold findCentroid. fold ref.
  rewrite (roomCentroids_ordinary plan H).
  unfold get, Object_entries. simpl.
  rewrite (lookup_recorded _ (centroid plan) (FloorPlan.rooms plan) H ref).
  fold (lastNamed plan ref).
  destruct (lastNamed plan ref) as [r|]; simpl; [reflexivity|].
  rewrite (inherited_nothing ObjectPrototype ref
             (normalized_lowercase roomRef) Hc Hp). simpl.
  rewrite (find_recorded _ (centroid plan) (fun k => related k ref)
             (FloorPlan.rooms plan) H).
  destruct (find (fun r => related (key r) ref) (FloorPlan.rooms plan)) as [r0|];
    [|reflexivity].
  fold (lastNamed plan (key r0)).
  destruct (lastNamed plan (key r0)); reflexivity.
Qed.

Lemma lastNamed_some (plan : FloorPlan.t) (k : string) (r : Room.t) :
  lastNamed plan k = Some r -> In r (FloorPlan.rooms plan) /\ key r = k.
Proof.
  unfold lastNamed. intros F. apply find_some in F. destruct F as [Hin Hk].
  split; [apply in_rev; exact Hin | apply String.eqb_eq; exact Hk].
Qed.

Lemma lastNamed_exists (plan : FloorPlan.t) (r : Room.t) :
  In r (FloorPlan.rooms plan) -> exists r', lastNamed plan (key r) = Some r'.
Proof.
  intros Hin. unfold lastNamed.
  destruct (find (fun r' => (key r' =? key r)%string) (rev (FloorPlan.rooms plan)))
    as [r'|] eqn:E.
  - exists r'. reflexivity.
  - exfalso. apply in_rev in Hin.
    pose proof (find_none _ _ E r Hin) as N. simpl in N.
    rewrite String.eqb_refl in N. discriminate.
Qed.

Lemma lastNamed_none (plan : FloorPlan.t) (k : string) :
  (forall r, In r (FloorPlan.rooms plan) -> key r <> k) ->
  lastNamed plan k = None.
Proof.
  intros H. destruct (lastNamed plan k) as [r|] eqn:E; [|reflexivity].
  apply lastNamed_some in E. destruct E as [Hin Hk].
  elim (H r Hin Hk).
Qed.

Lemma find_nothing (A : Type) (Q : A -> bool) (l : list A) :
  (forall a, In a l -> Q a = false) -> find Q l = None.
Proof.
  intros H. destruct (find Q l) as [a|] eqn:E; [|reflexivity].
  apply find_some in E. destruct E as [Hin Ha].
  rewrite (H a Hin) in Ha. discriminate.
Qed.

End Resolution.

(* ===================================================================== *)
(** * Properties of room-reference resolution and the overlays *)
(* ===================================================================== *)

Section Claims.
Import JS FloorPlanViewer Reference.

Lemma prefix_refl (s : string) : String.prefix s s = true.
Proof.
  induction s as [|a s IH]; simpl; [reflexivity|].
  destruct (ascii_dec a a); [exact IH | congruence].
Qed.

Lemma includes_refl (s : string) : includes s s = true.
Proof.
  destruct s; simpl; [reflexivity|].
  destruct (ascii_dec a a); [|congruence].
  rewrite prefix_refl. reflexivity.
Qed.

Lemma includes_empty (s : string) : includes s EmptyString = true.
Proof. destruct s; reflexivity. Qed.

Lemma related_refl (k : string) : related k k = true.
Proof. unfold related. rewrite includes_refl. reflexivity. Qed.

Lemma related_empty (k : string) : related k EmptyString = true.
Proof. unfold related. rewrite includes_empty. reflexivity. Qed.

Lemma airflowLine_unresolved (plan : FloorPlan.t) (flow : AirflowPath.t) :
  findCentroid plan (AirflowPath.from flow) = Undefined
  \/ findCentroid plan (AirflowPath.to flow) = Undefined ->
  airflowLine plan flow = None.
Proof.
  unfold airflowLine. intros [H|H]; rewrite H; simpl; [reflexivity|].
  rewrite orb_true_r. reflexivity.
Qed.

Lemma unrelated_unresolved (plan : FloorPlan.t) (roomRef : string) :
  let ref := trim (toLowerCase roomRef) in
  ordinary_names plan = true ->
  ref <> "constructor"%string ->
  ref <> "__proto__"%string ->
  (forall r, In r (FloorPlan.rooms plan) -> related (key r) ref = false) ->
  findCentroid plan roomRef = Undefined.
Proof.
  intros ref Hord Hc Hp H.
  rewrite (findCentroid_ordinary plan roomRef Hord Hc Hp). fold ref.
  rewrite (lastNamed_none plan ref).
  - rewrite (find_nothing _ _ _ H). reflexivity.
  - intros r Hin Hk. pose proof (H r Hin) as N.
    rewrite Hk, related_refl in N. discriminate.
Qed.

(** C1, as amended.  Airflow endpoint resolution lowercases and trims the
    reference and lowercases the room names without trimming them.  On a
    plan whose lowercased room names are neither array indices nor
    [__proto__], and for a reference that does not normalize to
    [constructor] or [__proto__]:
      - when the lowercased name of a room equals the normalized
        reference, the centroid recorded under that name (the centroid of
        the last room so named) is returned, whatever partial matches
        there are;
      - when there is none, the result is the centroid recorded under the
        name of the first room, in the order of the rooms array, whose
        lowercased name contains the normalized reference or is contained
        by it;
      - when no lowercased room name is so related to the reference there
        is no match, and an airflow entry with that endpoint draws no
        line.
    The heat-risk and daylight overlays follow another rule: each room
    takes the first diagnostic entry, in entry order, whose lowercased
    label contains the room's lowercased name or is contained by it, with
    no trimming and no preference for an exact match; a room with no such
    entry gets no overlay. *)
Theorem room_reference_resolution (plan : FloorPlan.t) (roomRef : string) :
  let ref := trim (toLowerCase roomRef) in
  ordinary_names plan = true ->
  ref <> "constructor"%string ->
  ref <> "__proto__"%string ->
  (* an exact match wins over any partial match *)
  (forall r, In r (FloorPlan.rooms plan) -> key r = ref ->
     exists r', lastNamed plan ref = Some r'
                /\ findCentroid plan roomRef = Object (centroid plan r'))
  (* otherwise the first room, in array order, related to the reference *)
  /\ ((forall r, In r (FloorPlan.rooms plan) -> key r <> ref) ->
      forall r0,
        find (fun r => related (key r) ref) (FloorPlan.rooms plan) = Some r0 ->
        exists r', lastNamed plan (key r0) = Some r'
                   /\ findCentroid plan roomRef = Object (centroid plan r'))
  (* and nothing when no room is related to it *)
  /\ ((forall r, In r (FloorPlan.rooms plan) -> related (key r) ref = false) ->
      findCentroid plan roomRef = Undefined
      /\ forall flow,
           AirflowPath.from flow = roomRef \/ AirflowPath.to flow = roomRef ->
           airflowLine plan flow = None)
  (* the overlays: per room, the first related entry, labels untrimmed *)
  /\ (forall room,
        heatRisk plan room
        = find (fun z => related (toLowerCase (HeatRiskZone.room z)) (key room))
            (ClimateDiagnostics.heat_risk (FloorPlan.diagnostics plan))
        /\ daylight plan room
           = find (fun z => related (toLowerCase (DaylightZone.room z)) (key room))
               (ClimateDiagnostics.daylight (FloorPlan.diagnostics plan)))
  /\ (forall room show,
        (forall z, In z (ClimateDiagnostics.heat_risk (FloorPlan.diagnostics plan)) ->
                   related (toLowerCase (HeatRiskZone.room z)) (key room) = false) ->
        heatOverlay show plan room = None)
  /\ (forall room show,
        (forall z, In z (ClimateDiagnostics.daylight (FloorPlan.diagnostics plan)) ->
                   related (toLowerCase (DaylightZone.room z)) (key room) = false) ->
        daylightOverlay show plan room = None).
Proof.
  intros ref Hord Hc Hp.
  pose proof (findCentroid_ordinary plan roomRef Hord Hc Hp) as E. fold ref in E.
  split; [|split; [|split; [|split; [|split]]]].
  - intros r Hin Hk.
    destruct (lastNamed_exists plan r Hin) as [r' Hr']. rewrite Hk in Hr'.
    exists r'. split; [exact Hr'|]. rewrite E, Hr'. reflexivity.
  - intros Hno r0 F.
    apply find_some in F as F'. destruct F' as [Hin _].
    destruct (lastNamed_exists plan r0 Hin) as [r' Hr'].
    exists r'. split; [exact Hr'|].
    rewrite E, (lastNamed_none plan ref Hno), F, Hr'. reflexivity.
  - intros H.
    pose proof (unrelated_unresolved plan roomRef Hord Hc Hp H) as U.
    split; [exact U|].
    intros flow Hf. apply airflowLine_unresolved.
    destruct Hf as [Hf|Hf]; rewrite Hf; [left | right]; exact U.
  - intros room. split; reflexivity.
  - intros room show H. unfold heatOverlay. destruct show; [|reflexivity].
    assert (heatRisk plan room = None) as ->; [|reflexivity].
    apply find_nothing. exact H.
  - intros room show H. unfold daylightOverlay. destruct show; [|reflexivity].
    assert (daylight plan room = None) as ->; [|reflexivity].
    apply find_nothing. exact H.
Qed.

Open Scope string_scope.

Lemma room_reference_resolution_witness :
  ordinary_names Sample.two_rooms = true
  /\ trim (toLowerCase " KITCHEN ") <> "constructor"
  /\ trim (toLowerCase " KITCHEN ") <> "__proto__"
  /\ findCentroid Sample.two_rooms " KITCHEN "
     = Object (centroid Sample.two_rooms (Sample.room "Kitchen" 5 0 3 4))
  /\ findCentroid Sample.two_rooms "Living"
     = Object (centroid Sample.two_rooms (Sample.room "Living Room" 0 0 5 4))
  /\ airflowLine Sample.two_rooms (Sample.flow "Garage" "Kitchen" strong) = None.
Proof.
  assert (trim (toLowerCase " KITCHEN ") <> "constructor") as H1
    by (vm_compute; discriminate).
  assert (trim (toLowerCase " KITCHEN ") <> "__proto__") as H2
    by (vm_compute; discriminate).
  assert (trim (toLowerCase "Living") <> "constructor") as H3
    by (vm_compute; discriminate).
  assert (trim (toLowerCase "Living") <> "__proto__") as H4
    by (vm_compute; discriminate).
  assert (trim (toLowerCase "Garage") <> "constructor") as H5
    by (vm_compute; discriminate).
  assert (trim (toLowerCase "Garage") <> "__proto__") as H6
    by (vm_compute; discriminate).
  split; [reflexivity | split; [exact H1 | split; [exact H2 | split; [|split]]]].
  - destruct (room_reference_resolution Sample.two_rooms " KITCHEN "
                eq_refl H1 H2) as (Exact & _).
    destruct (Exact (Sample.room "Kitchen" 5 0 3 4)) as (r' & L & F).
    + simpl. right. left. reflexivity.
    + reflexivity.
    + vm_compute in L. injection L as <-. exact F.
  - destruct (room_reference_resolution Sample.two_rooms "Living"
                eq_refl H3 H4) as (_ & Partial & _).
    destruct (Partial) with (r0 := Sample.room "Living Room" 0 0 5 4)
      as (r' & L & F).
    + intros r [<-|[<-|[]]]; vm_compute; discriminate.
    + reflexivity.
    + vm_compute in L. injection L as <-. exact F.
  - destruct (room_reference_resolution Sample.two_rooms "Garage"
                eq_refl H5 H6) as (_ & _ & Nothing & _).
    destruct Nothing as [_ N].
    + intros r [<-|[<-|[]]]; reflexivity.
    + apply N. left. reflexivity.
Defined.



(** C1 as stated fails.  With the rooms "Master Bedroom" and "Bedroom"
    and one heat-risk entry labelled "Bedroom", the resolution the claim
    describes yields the room "Bedroom" alone, an exact match, yet the
    renderer also tints "Master Bedroom" with that entry.  With the rooms
    "Kit" and "Kitchen " (a trailing space), the reference "kitchen"
    equals the second name once both are trimmed, yet [findCentroid]
    returns the centroid of "Kit": room names are not trimmed. *)
Lemma resolution_differs_from_specified :
  resolve_as_specified SamplePlans.bedrooms "Bedroom"
  = Some SamplePlans.bedroom_room
  /\ heatRisk SamplePlans.bedrooms SamplePlans.master_bedroom
     = Some SamplePlans.bedroom_entry
  /\ heatOverlay true SamplePlans.bedrooms SamplePlans.master_bedroom
     = Some (45 # 100)
  /\ SamplePlans.master_bedroom <> SamplePlans.bedroom_room
  /\ resolve_as_specified SamplePlans.padded "kitchen"
     = Some (Sample.room "Kitchen " 2 0 4 4)
  /\ findCentroid SamplePlans.padded "kitchen"
     = Object (centroid SamplePlans.padded (Sample.room "Kit" 0 0 2 2))
  /\ centroid SamplePlans.padded (Sample.room "Kit" 0 0 2 2)
     <> centroid SamplePlans.padded (Sample.room "Kitchen " 2 0 4 4).
Proof.
  repeat split; try reflexivity; vm_compute; discriminate.
Qed.

Lemma lastNamed_first (plan : FloorPlan.t) (r0 : Room.t) (rest : list Room.t) :
  FloorPlan.rooms plan = r0 :: rest ->
  (forall r, In r rest -> key r <> key r0) ->
  lastNamed plan (key r0) = Some r0.
Proof.
  intros Hrooms Hrest. unfold lastNamed. rewrite Hrooms. simpl.
  rewrite find_snoc, find_nothing.
  - rewrite String.eqb_refl. reflexivity.
  - intros r Hin. apply in_rev in Hin.
    apply String.eqb_neq. apply Hrest. exact Hin.
Qed.

(** C10, as amended.  On a plan with at least one room whose lowercased
    room names are neither array indices nor [__proto__], a reference
    that is empty or all whitespace always resolves to the centroid of
    some room.  When no room is named the empty string, the scan returns
    the centroid recorded under the lowercased name of the first room,
    which is the centroid of the last room carrying that name: the first
    room itself when no later room shares its lowercased name. *)
Theorem blank_reference_resolves
  (plan : FloorPlan.t) (roomRef : string) (r0 : Room.t) (rest : list Room.t) :
  trim (toLowerCase roomRef) = ""%string ->
  FloorPlan.rooms plan = r0 :: rest ->
  ordinary_names plan = true ->
  (exists r', In r' (FloorPlan.rooms plan)
              /\ findCentroid plan roomRef = Object (centroid plan r'))
  /\ ((forall r, In r (FloorPlan.rooms plan) -> key r <> ""%string) ->
      (exists r', lastNamed plan (key r0) = Some r'
                  /\ findCentroid plan roomRef = Object (centroid plan r'))
      /\ ((forall r, In r rest -> key r <> key r0) ->
          findCentroid plan roomRef = Object (centroid plan r0))).
Proof.
  intros Href Hrooms Hord.
  assert (findCentroid plan roomRef
          = match lastNamed plan "" with
            | Some r => Object (centroid plan r)
            | None =>
                match lastNamed plan (key r0) with
                | Some r1 => Object (centroid plan r1)
                | None => Undefined
                end
            end) as E.
  { rewrite (findCentroid_ordinary plan roomRef Hord);
      rewrite Href; [| discriminate | discriminate].
    destruct (lastNamed plan ""); [reflexivity|].
    rewrite Hrooms. simpl. rewrite related_empty. reflexivity. }
  assert (In r0 (FloorPlan.rooms plan)) as Hin0 by (rewrite Hrooms; left; reflexivity).
  destruct (lastNamed_exists plan r0 Hin0) as [r1 Hr1].
  split; [|intros Hno; split].
  - destruct (lastNamed plan "") as [r|] eqn:L.
    + exists r. split; [apply (lastNamed_some plan _ r L) | exact E].
    + exists r1. split; [apply (lastNamed_some plan _ r1 Hr1)|].
      rewrite E, Hr1. reflexivity.
  - exists r1. split; [exact Hr1|].
    rewrite E, (lastNamed_none plan "" Hno), Hr1. reflexivity.
  - intros Hrest.
    rewrite E, (lastNamed_none plan "" Hno),
      (lastNamed_first plan r0 rest Hrooms Hrest).
    reflexivity.
Qed.

Lemma blank_reference_resolves_witness :
  trim (toLowerCase "   ") = ""%string
  /\ ordinary_names Sample.two_rooms = true
  /\ findCentroid Sample.two_rooms "   "
     = Object (centroid Sample.two_rooms (Sample.room "Living Room" 0 0 5 4)).
Proof.
  split; [reflexivity | split; [reflexivity|]].
  destruct (blank_reference_resolves Sample.two_rooms "   "
              (Sample.room "Living Room" 0 0 5 4)
              [Sample.room "Kitchen" 5 0 3 4] eq_refl eq_refl eq_refl)
    as (_ & Scan).
  apply Scan.
  - intros r [<-|[<-|[]]]; vm_compute; discriminate.
  - intros r [<-|[]]; vm_compute; discriminate.
Defined.

(** C10 as stated fails.  With two rooms named "Bath" a blank reference
    resolves to the centroid of the second, which differs from that of
    the first; with the rooms "Hall" and "2" it resolves to the centroid
    of "2", whose key is enumerated first; and on a plan whose only room
    is named "__proto__" it resolves to nothing. *)
Lemma blank_reference_not_first_room :
  (findCentroid SamplePlans.twins " "
   = Object (centroid SamplePlans.twins (Sample.room "Bath" 5 0 2 2))
   /\ centroid SamplePlans.twins (Sample.room "Bath" 5 0 2 2)
      <> centroid SamplePlans.twins (Sample.room "Bath" 0 0 2 2))
  /\ (findCentroid SamplePlans.numbered " "
      = Object (centroid SamplePlans.numbered (Sample.room "2" 5 0 2 2))
      /\ centroid SamplePlans.numbered (Sample.room "2" 5 0 2 2)
         <> centroid SamplePlans.numbered (Sample.room "Hall" 0 0 2 2))
  /\ findCentroid SamplePlans.proto_only " " = Undefined.
Proof.
  repeat split; try reflexivity; vm_compute; discriminate.
Qed.

Lemma airflowLine_stroke (plan : FloorPlan.t) (flow : AirflowPath.t) (l : Line) :
  airflowLine plan flow = Some l ->
  strokeWidth l = 2 /\ strokeOpacity l = 6 # 10.
Proof.
  unfold airflowLine. intros H.
  destruct (negb (truthy (findCentroid plan (AirflowPath.from flow)))
            || negb (truthy (findCentroid plan (AirflowPath.to flow))));
    [discriminate|].
  injection H as <-. split; reflexivity.
Qed.

(** C7.  The stroke of an airflow line does not follow the entry's
    strength: the renderer reads [flow.efficiency], which an airflow
    entry does not have, so every line that is drawn is 2 thick at
    opacity 0.6, a strong path exactly like a weak one.  An entry with an
    endpoint that no room name is related to draws no line; an endpoint
    that names a member of [Object.prototype] is taken for a match and
    its line has no start point. *)
Theorem airflow_stroke_ignores_strength :
  (forall plan flow l,
     airflowLine plan flow = Some l ->
     strokeWidth l = 2 /\ strokeOpacity l = 6 # 10)
  /\ (forall plan from to,
        option_map (fun l => (strokeWidth l, strokeOpacity l))
          (airflowLine plan (Sample.flow from to strong))
        = option_map (fun l => (strokeWidth l, strokeOpacity l))
            (airflowLine plan (Sample.flow from to weak)))
  /\ map (option_map (fun l => (strokeWidth l, strokeOpacity l)))
       (airflowPaths true Sample.two_rooms)
     = [Some (2, 6 # 10); Some (2, 6 # 10)]
  /\ airflowLine Sample.two_rooms (Sample.flow "Garage" "Kitchen" strong) = None
  /\ option_map (fun l => (x1 l, y1 l, strokeWidth l))
       (airflowLine Sample.two_rooms (Sample.flow "constructor" "Kitchen" strong))
     = Some (None, None, 2).
Proof.
  split; [exact airflowLine_stroke | split; [|repeat split]].
  intros plan from to. unfold airflowLine. simpl.
  destruct (negb (truthy (findCentroid plan from))
            || negb (truthy (findCentroid plan to))); reflexivity.
Qed.

End Claims.

(* ===================================================================== *)
(** * Properties of the workflows *)
(* ===================================================================== *)

Section Workflows.
Import App DesignState Workflow.
Open Scope string_scope.

(** C3 as the specification words it fails on a run that follows a
    successful one: the climate fetch succeeds, the design generation
    fails, and the final state still stores a floor plan, the one of the
    earlier run. *)
Lemma failed_regeneration_keeps_the_old_plan :
  let r := Generate SampleService.flaky 1%nat "Phoenix" "15m x 20m" cooling
             "3 bedrooms" SampleService.designed in
  "Phoenix" <> ""
  /\ @SampleService.flaky _ 1%nat (getClimateData "Phoenix" "15m x 20m" cooling)
     = Fulfilled SampleService.phoenix
  /\ @SampleService.flaky _ 2%nat
       (generateDesign SampleService.phoenix "15m x 20m" "3 bedrooms")
     = Rejected SampleService.quota
  /\ error (snd r) = Some "Quota exceeded"
  /\ isGenerating (snd r) = false
  /\ floorPlan (snd r) = Some Sample.two_rooms
  /\ floorPlan (snd r) <> None.
Proof.
  cbv zeta.
  split; [discriminate|]. split; [reflexivity|]. split; [reflexivity|].
  split; [reflexivity|]. split; [reflexivity|]. split; [reflexivity|].
  discriminate.
Qed.

(** C3, as amended.  In the Generate workflow with a non-empty location, once the
    climate fetch has succeeded exactly two requests are made, the
    climate fetch and then the design generation for the fetched climate.
    If the second succeeds, the final state holds the climate and the
    floor plan and is not generating.  If the second fails, the final
    state has the error set (to the error's message, or to "Failed to
    generate design." when it has none), is not generating, and the run
    has stored no floor plan: the floor-plan field holds what it held
    before the run, nothing on a first run and the earlier plan on a
    re-run. *)
Theorem generate_workflow (svc : Service) (n : nat) (s : DesignState.t)
  (location plotDimensions : string) (priority : Priority) (requirements : string)
  (c : ClimateData.t) :
  location <> "" ->
  svc _ n (getClimateData location plotDimensions priority) = Fulfilled c ->
  let r := Generate svc n location plotDimensions priority requirements s in
  calls (fst r)
  = [ Call (getClimateData location plotDimensions priority);
      Call (generateDesign c plotDimensions requirements) ]
  /\ (forall p,
        svc _ (S n) (generateDesign c plotDimensions requirements) = Fulfilled p ->
        climate (snd r) = Some c
        /\ floorPlan (snd r) = Some p
        /\ isGenerating (snd r) = false)
  /\ (forall err,
        svc _ (S n) (generateDesign c plotDimensions requirements) = Rejected err ->
        error (snd r) = Some (or_else (message err) "Failed to generate design.")
        /\ or_else (message err) "Failed to generate design." <> ""
        /\ isGenerating (snd r) = false
        /\ floorPlan (snd r) = floorPlan s).
Proof.
  intros Hloc H1 r. subst r. unfold Generate, handleGenerate.
  destruct (String.eqb_spec location "") as [E|_]; [contradiction|].
  simpl. rewrite H1. simpl.
  destruct (svc FloorPlan.t (S n) (generateDesign c plotDimensions requirements))
    as [p|err] eqn:H2; simpl.
  - split; [reflexivity|]. split.
    + intros p' Hp. injection Hp as <-. repeat split.
    + intros err Herr. discriminate.
  - split; [reflexivity|]. split.
    + intros p' Hp. discriminate.
    + intros err' Herr. injection Herr as <-. repeat split.
      destruct (message err) as [[|a m]|]; discriminate.
Qed.

Lemma generate_workflow_witness :
  "Phoenix" <> ""
  /\ @SampleService.reliable _ 0%nat (getClimateData "Phoenix" "15m x 20m" cooling)
     = Fulfilled SampleService.phoenix
  /\ (climate SampleService.designed = Some SampleService.phoenix
      /\ floorPlan SampleService.designed = Some Sample.two_rooms
      /\ isGenerating SampleService.designed = false)
  /\ (let r := Generate SampleService.flaky 1%nat "Phoenix" "15m x 20m" cooling
                 "3 bedrooms" SampleService.designed in
      error (snd r) = Some "Quota exceeded"
      /\ isGenerating (snd r) = false
      /\ floorPlan (snd r) = Some Sample.two_rooms).
Proof.
  assert ("Phoenix" <> "") as Hloc by discriminate.
  split; [exact Hloc | split; [reflexivity | split]].
  - destruct (generate_workflow SampleService.reliable 0%nat initialState
                "Phoenix" "15m x 20m" cooling "3 bedrooms"
                SampleService.phoenix Hloc eq_refl) as (_ & Ok & _).
    exact (Ok Sample.two_rooms eq_refl).
  - destruct (generate_workflow SampleService.flaky 1%nat SampleService.designed
                "Phoenix" "15m x 20m" cooling "3 bedrooms"
                SampleService.phoenix Hloc eq_refl) as (_ & _ & Ko).
    destruct (Ko SampleService.quota eq_refl) as (He & _ & Hg & Hp).
    split; [exact He | split; [exact Hg | exact Hp]].
Defined.

(** A Generate run whose climate fetch succeeds and whose design
    generation fails leaves the climate and the floor plan of every state
    it goes through as they were before the run. *)
Lemma generate_failure_frame (svc : Service) (n : nat)
  (s : DesignState.t) (location plotDimensions : string) (priority : Priority)
  (requirements : string) (c : ClimateData.t) (err : JsError) :
  location <> "" ->
  svc _ n (getClimateData location plotDimensions priority) = Fulfilled c ->
  svc _ (S n) (generateDesign c plotDimensions requirements) = Rejected err ->
  let r := Generate svc n location plotDimensions priority requirements s in
  Forall (fun s' => climate s' = climate s /\ floorPlan s' = floorPlan s)
         (states (fst r))
  /\ climate (snd r) = climate s
  /\ floorPlan (snd r) = floorPlan s.
Proof.
  intros Hloc H1 H2 r. subst r. unfold Generate, handleGenerate.
  destruct (String.eqb_spec location "") as [E|_]; [contradiction|].
  simpl. rewrite H1. simpl. rewrite H2. simpl.
  repeat split. repeat constructor.
Qed.

(** C4, as amended.  In the Generate workflow, when the climate fetch
    succeeds and the design generation fails, the fetched climate is not
    stored: every state the run goes through, the state at the point of
    failure and the final state included, holds the climate and the floor
    plan that were stored before the run.  The climate is written only
    together with the plan, by the single update that follows the second
    call, so the run exposes no climate without a plan. *)
Theorem failed_design_stores_no_climate (svc : Service) (n : nat)
  (s : DesignState.t) (location plotDimensions : string) (priority : Priority)
  (requirements : string) (c : ClimateData.t) (err : JsError) :
  location <> "" ->
  svc _ n (getClimateData location plotDimensions priority) = Fulfilled c ->
  svc _ (S n) (generateDesign c plotDimensions requirements) = Rejected err ->
  let r := Generate svc n location plotDimensions priority requirements s in
  Forall (fun s' => climate s' = climate s /\ floorPlan s' = floorPlan s)
         (states (fst r))
  /\ climate (snd r) = climate s
  /\ floorPlan (snd r) = floorPlan s
  /\ (~ climate_without_plan s ->
      Forall (fun s' => ~ climate_without_plan s') (states (fst r))
      /\ ~ climate_without_plan (snd r)).
Proof.
  intros Hloc H1 H2 r.
  destruct (generate_failure_frame svc n s location plotDimensions priority
              requirements c err Hloc H1 H2) as (Hall & Hc & Hp).
  fold r in Hall, Hc, Hp.
  split; [exact Hall | split; [exact Hc | split; [exact Hp|]]].
  intros Hs. unfold climate_without_plan in *. split.
  - rewrite Forall_forall in *. intros s' Hin.
    destruct (Hall s' Hin) as [Ec Ep]. rewrite Ec, Ep. exact Hs.
  - rewrite Hc, Hp. exact Hs.
Qed.

Lemma failed_design_stores_no_climate_witness :
  "Phoenix" <> ""
  /\ @SampleService.flaky _ 0%nat (getClimateData "Phoenix" "15m x 20m" cooling)
     = Fulfilled SampleService.phoenix
  /\ @SampleService.flaky _ 1%nat
       (generateDesign SampleService.phoenix "15m x 20m" "3 bedrooms")
     = Rejected SampleService.quota
  /\ climate (snd (Generate SampleService.flaky 0%nat "Phoenix" "15m x 20m" cooling
                     "3 bedrooms" initialState)) = None.
Proof.
  assert ("Phoenix" <> "") as Hloc by discriminate.
  split; [exact Hloc | split; [reflexivity | split; [reflexivity|]]].
  destruct (failed_design_stores_no_climate SampleService.flaky 0%nat initialState
              "Phoenix" "15m x 20m" cooling "3 bedrooms"
              SampleService.phoenix SampleService.quota Hloc eq_refl eq_refl)
    as (_ & Hc & _).
  exact Hc.
Defined.

Lemma keeps_plan_with_climate (f : DesignState.t -> DesignState.t) :
  (forall s, climate (f s) = climate s /\ floorPlan (f s) = floorPlan s) ->
  forall s, ~ climate_without_plan s -> ~ climate_without_plan (f s).
Proof.
  unfold climate_without_plan. intros H s Hs.
  destruct (H s) as [-> ->]. exact Hs.
Qed.

Lemma stores_plan (f : DesignState.t -> DesignState.t) :
  (forall s, floorPlan (f s) <> None) ->
  forall s, ~ climate_without_plan s -> ~ climate_without_plan (f s).
Proof.
  unfold climate_without_plan. intros H s _ [_ Hp]. exact (H s Hp).
Qed.

(** No update of the three handlers turns a state into one that holds a
    climate and no plan. *)
Lemma handlers_keep_plan_with_climate :
  let kept := every_update
                (fun f => forall s, ~ climate_without_plan s ->
                                    ~ climate_without_plan (f s)) in
  (forall location plotDimensions priority requirements,
     kept (handleGenerate location plotDimensions priority requirements))
  /\ (forall state, kept (handleRefine state))
  /\ (forall state, kept (handleRunDiagnostics state)).
Proof.
  intros kept. subst kept. split; [|split].
  - intros location plotDimensions priority requirements.
    unfold handleGenerate. destruct (location =? "")%string; [constructor|].
    constructor; [apply keeps_plan_with_climate; split; reflexivity|].
    constructor. intros [c|err].
    + constructor. intros [p|err].
      * constructor; [|constructor].
        apply stores_plan. intros s. discriminate.
      * constructor; [|constructor].
        apply keeps_plan_with_climate; split; reflexivity.
    + constructor; [|constructor].
      apply keeps_plan_with_climate; split; reflexivity.
  - intros state. unfold handleRefine.
    destruct (floorPlan state); [|constructor].
    destruct (climate state); [|constructor].
    constructor; [apply keeps_plan_with_climate; split; reflexivity|].
    constructor. intros [rf|err].
    + constructor; [apply stores_plan; intros s; discriminate|].
      constructor; [apply keeps_plan_with_climate; split; reflexivity|].
      constructor. intros [v|err];
        (constructor; [apply keeps_plan_with_climate; split; reflexivity
                      | constructor]).
    + constructor; [apply keeps_plan_with_climate; split; reflexivity
                   | constructor].
  - intros state. unfold handleRunDiagnostics.
    destruct (floorPlan state); [|constructor].
    constructor; [apply keeps_plan_with_climate; split; reflexivity|].
    constructor. intros [d|err].
    + constructor; [|constructor].
      unfold climate_without_plan. intros s Hs [Hc Hp]. apply Hs.
      simpl in *. split; [exact Hc|].
      destruct (floorPlan s); [discriminate | reflexivity].
    + constructor; [apply keeps_plan_with_climate; split; reflexivity
                   | constructor].
Qed.

(** C4 as stated fails: there is no execution of the Generate workflow,
    started in a state that is not already a climate without a plan, in
    which the climate fetch succeeds, the design generation fails and
    some state of the run, the final one included, holds a climate and
    no plan. *)
Lemma no_climate_without_plan :
  ~ (exists (svc : Service) (n : nat) (s s' : DesignState.t)
            (location plotDimensions : string) (priority : Priority)
            (requirements : string) (c : ClimateData.t) (err : JsError),
        location <> ""
        /\ svc _ n (getClimateData location plotDimensions priority) = Fulfilled c
        /\ svc _ (S n) (generateDesign c plotDimensions requirements) = Rejected err
        /\ ~ climate_without_plan s
        /\ (In s' (states (fst (Generate svc n location plotDimensions priority
                                 requirements s)))
            \/ s' = snd (Generate svc n location plotDimensions priority
                           requirements s))
        /\ climate_without_plan s').
Proof.
  intros (svc & n & s & s' & location & plot & priority & requirements & c & err
          & Hloc & H1 & H2 & Hs & Hs' & Hpartial).
  destruct (generate_failure_frame svc n s location plot priority
              requirements c err Hloc H1 H2) as (Hall & Hc & Hp).
  apply Hs. unfold climate_without_plan in *.
  destruct Hs' as [Hin| ->].
  - rewrite Forall_forall in Hall. destruct (Hall s' Hin) as [Ec Ep].
    rewrite <- Ec, <- Ep. exact Hpartial.
  - rewrite <- Hc, <- Hp. exact Hpartial.
Qed.



(** C5.  In the Refine workflow, started with a plan and a climate: when
    the refine and evaluate requests succeed, the requests are the
    refinement of the current plan followed by the evaluation of the
    revised plan's performance metrics, the revised plan is the current
    plan, the plan from before is the previous plan, and the verdict is
    stored with the evaluating and refining flags false.  When the refine
    request fails, or the evaluate request after it, both flags end up
    false and the error is "Optimization cycle failed. Please try
    again.". *)
Theorem refine_workflow (svc : Service) (n : nat) (s : DesignState.t)
  (p0 : FloorPlan.t) (c0 : ClimateData.t) :
  floorPlan s = Some p0 ->
  climate s = Some c0 ->
  let r := Refine svc n s in
  let failed :=
    isRefining (snd r) = false
    /\ isEvaluating (snd r) = false
    /\ error (snd r) = Some "Optimization cycle failed. Please try again." in
  (forall rf v,
     svc _ n (refineDesign p0 c0) = Fulfilled rf ->
     svc _ (S n)
       (evaluateOptimization
          (FloorPlan.performanceMetrics (RefinementResult.revised_floor_plan rf)))
     = Fulfilled v ->
     calls (fst r)
     = [ Call (refineDesign p0 c0);
         Call (evaluateOptimization
                 (FloorPlan.performanceMetrics
                    (RefinementResult.revised_floor_plan rf))) ]
     /\ floorPlan (snd r) = Some (RefinementResult.revised_floor_plan rf)
     /\ previousFloorPlan (snd r) = Some p0
     /\ optimizationVerdict (snd r) = Some v
     /\ isEvaluating (snd r) = false
     /\ isRefining (snd r) = false)
  /\ (forall err, svc _ n (refineDesign p0 c0) = Rejected err -> failed)
  /\ (forall rf err,
        svc _ n (refineDesign p0 c0) = Fulfilled rf ->
        svc _ (S n)
          (evaluateOptimization
             (FloorPlan.performanceMetrics (RefinementResult.revised_floor_plan rf)))
        = Rejected err ->
        failed).
Proof.
  intros Hp Hc r failed. subst r failed. unfold Refine, handleRefine.
  rewrite Hp, Hc. simpl.
  split; [|split].
  - intros rf v H1 H2. rewrite H1. simpl. rewrite H2. simpl. repeat split.
  - intros err H1. rewrite H1. simpl. repeat split.
  - intros rf err H1 H2. rewrite H1. simpl. rewrite H2. simpl. repeat split.
Qed.

Lemma refine_workflow_witness :
  floorPlan SampleService.designed = Some Sample.two_rooms
  /\ climate SampleService.designed = Some SampleService.phoenix
  /\ (let r := Refine SampleService.reliable 2 SampleService.designed in
      floorPlan (snd r) = Some SampleService.revised
      /\ previousFloorPlan (snd r) = Some Sample.two_rooms
      /\ optimizationVerdict (snd r) = Some SampleService.verdict)
  /\ (let r := Refine SampleService.flaky 2 SampleService.designed in
      isRefining (snd r) = false
      /\ isEvaluating (snd r) = false
      /\ error (snd r) = Some "Optimization cycle failed. Please try again.").
Proof.
  split; [reflexivity | split; [reflexivity | split]].
  - destruct (refine_workflow SampleService.reliable 2 SampleService.designed
                Sample.two_rooms SampleService.phoenix eq_refl eq_refl)
      as (Ok & _).
    destruct (Ok SampleService.refined SampleService.verdict eq_refl eq_refl)
      as (_ & Hp & Hq & Hv & _).
    split; [exact Hp | split; [exact Hq | exact Hv]].
  - destruct (refine_workflow SampleService.flaky 2 SampleService.designed
                Sample.two_rooms SampleService.phoenix eq_refl eq_refl)
      as (_ & _ & Ko).
    exact (Ko SampleService.refined SampleService.quota eq_refl eq_refl).
Defined.

Lemma with_diagnostics_frame (d : ClimateDiagnostics.t) (p : FloorPlan.t) :
  same_but_diagnostics p (with_diagnostics d p).
Proof. repeat split. Qed.

Lemma same_but_diagnostics_refl (p : FloorPlan.t) : same_but_diagnostics p p.
Proof. repeat split. Qed.

Lemma same_but_diagnostics_trans (p q r : FloorPlan.t) :
  same_but_diagnostics p q -> same_but_diagnostics q r ->
  same_but_diagnostics p r.
Proof.
  unfold same_but_diagnostics.
  intros (A1 & A2 & A3 & A4 & A5 & A6 & A7) (B1 & B2 & B3 & B4 & B5 & B6 & B7).
  repeat split; congruence.
Qed.

(** Whatever the service answers, Diagnose keeps a plan in place whose
    fields other than [diagnostics] are those of the plan before. *)
Lemma diagnose_frame (svc : Service) (n : nat) (s : DesignState.t)
  (p : FloorPlan.t) :
  floorPlan s = Some p ->
  exists p', floorPlan (snd (Diagnose svc n s)) = Some p'
             /\ same_but_diagnostics p p'.
Proof.
  intros Hp. unfold Diagnose, handleRunDiagnostics. rewrite Hp. simpl.
  destruct (svc ClimateDiagnostics.t n (getDiagnostics p)) as [d|err]; simpl.
  - rewrite Hp. exists (with_diagnostics d p).
    split; [reflexivity | apply with_diagnostics_frame].
  - exists p. split; [exact Hp | apply same_but_diagnostics_refl].
Qed.

(** C6.  In the Diagnose workflow, started with a plan: on success the
    current plan carries the returned diagnostics and equals the plan
    from before in every other field.  Two Diagnose runs in succession,
    whatever the service answers, leave every plan field other than the
    diagnostics as it was before the first. *)
Theorem diagnose_changes_only_diagnostics (svc : Service) (n : nat)
  (s : DesignState.t) (p0 : FloorPlan.t) :
  floorPlan s = Some p0 ->
  (forall d,
     svc _ n (getDiagnostics p0) = Fulfilled d ->
     exists p1,
       floorPlan (snd (Diagnose svc n s)) = Some p1
       /\ FloorPlan.diagnostics p1 = d
       /\ same_but_diagnostics p0 p1)
  /\ (forall m,
        exists p1 p2,
          floorPlan (snd (Diagnose svc n s)) = Some p1
          /\ floorPlan (snd (Diagnose svc m (snd (Diagnose svc n s)))) = Some p2
          /\ same_but_diagnostics p0 p1
          /\ same_but_diagnostics p1 p2
          /\ same_but_diagnostics p0 p2).
Proof.
  intros Hp. split.
  - intros d Hd. exists (with_diagnostics d p0).
    unfold Diagnose, handleRunDiagnostics. rewrite Hp. simpl. rewrite Hd. simpl.
    rewrite Hp. repeat split.
  - intros m.
    destruct (diagnose_frame svc n s p0 Hp) as (p1 & H1 & F1).
    destruct (diagnose_frame svc m _ p1 H1) as (p2 & H2 & F2).
    exists p1, p2. repeat split; try assumption; try apply F1; try apply F2.
    all: apply (same_but_diagnostics_trans p0 p1 p2 F1 F2).
Qed.

Lemma diagnose_changes_only_diagnostics_witness :
  floorPlan SampleService.designed = Some Sample.two_rooms
  /\ exists p2,
       floorPlan (snd (Diagnose SampleService.reliable 3
                         (snd (Diagnose SampleService.reliable 2
                                 SampleService.designed)))) = Some p2
       /\ FloorPlan.rooms p2 = FloorPlan.rooms Sample.two_rooms.
Proof.
  split; [reflexivity|].
  destruct (diagnose_changes_only_diagnostics SampleService.reliable 2
              SampleService.designed Sample.two_rooms eq_refl) as (_ & Twice).
  destruct (Twice 3%nat) as (p1 & p2 & _ & H2 & _ & _ & F).
  exists p2. split; [exact H2|].
  destruct F as (_ & _ & Hrooms & _). symmetry. exact Hrooms.
Defined.

Lemma run_every_update (I : DesignState.t -> Prop) (svc : Service) (h : handler) :
  every_update (fun f => forall s, I s -> I (f s)) h ->
  forall n s, I s ->
    Forall I (states (fst (run svc h n s))) /\ I (snd (run svc h n s)).
Proof.
  induction 1 as [|f k Hf _ IH|R req k _ IH]; intros n s Hs; simpl.
  - split; [constructor | exact Hs].
  - specialize (IH n (f s) (Hf s Hs)).
    destruct (run svc k n (f s)) as [tr s']. simpl in *.
    destruct IH as [Hall Hlast].
    split; [constructor; [apply Hf, Hs | exact Hall] | exact Hlast].
  - specialize (IH (svc R n req) (S n) s Hs).
    destruct (run svc (k (svc R n req)) (S n) s) as [tr s']. simpl in *.
    exact IH.
Qed.

Lemma every_update_weaken (P Q : (DesignState.t -> DesignState.t) -> Prop)
  (h : handler) :
  (forall f, P f -> Q f) -> every_update P h -> every_update Q h.
Proof.
  intros PQ. induction 1; constructor; auto.
Qed.

Lemma appends_keep (f : DesignState.t -> DesignState.t) :
  (forall s, history (f s) = history s) -> appends f.
Proof.
  intros H s. exists []. rewrite app_nil_r. apply H.
Qed.

Lemma appends_add (f : DesignState.t -> DesignState.t) (e : DesignState.t -> string) :
  (forall s, history (f s) = (history s ++ [e s])%list) -> appends f.
Proof.
  intros H s. exists [e s]. apply H.
Qed.

Lemma handleGenerate_appends location plotDimensions priority requirements :
  every_update appends (handleGenerate location plotDimensions priority requirements).
Proof.
  unfold handleGenerate. destruct (location =? "")%string; [constructor|].
  constructor; [apply appends_keep; reflexivity|].
  constructor. intros [c|err].
  - constructor. intros [p|err].
    + constructor; [|constructor].
      apply (appends_add _ (fun _ => "Designed for " ++ location)). reflexivity.
    + constructor; [apply appends_keep; reflexivity | constructor].
  - constructor; [apply appends_keep; reflexivity | constructor].
Qed.

Lemma handleRefine_appends state : every_update appends (handleRefine state).
Proof.
  unfold handleRefine.
  destruct (floorPlan state); [|constructor].
  destruct (climate state); [|constructor].
  constructor; [apply appends_keep; reflexivity|].
  constructor. intros [rf|err].
  - constructor.
    + apply (appends_add _ (fun _ => "Refined design for performance optimization")).
      reflexivity.
    + constructor; [apply appends_keep; reflexivity|].
      constructor. intros [v|err];
        (constructor; [apply appends_keep; reflexivity | constructor]).
  - constructor; [apply appends_keep; reflexivity | constructor].
Qed.

Lemma handleRunDiagnostics_appends state :
  every_update appends (handleRunDiagnostics state).
Proof.
  unfold handleRunDiagnostics.
  destruct (floorPlan state); [|constructor].
  constructor; [apply appends_keep; reflexivity|].
  constructor. intros [d|err];
    (constructor; [apply appends_keep; reflexivity | constructor]).
Qed.

Lemma appends_run (svc : Service) (h : handler) (n : nat) (s : DesignState.t) :
  every_update appends h ->
  Forall (fun s' => exists l, history s' = (history s ++ l)%list)
         (states (fst (run svc h n s)))
  /\ exists l, history (snd (run svc h n s)) = (history s ++ l)%list.
Proof.
  intros H.
  apply (run_every_update (fun s' => exists l, history s' = (history s ++ l)%list)).
  - apply (every_update_weaken appends); [|exact H].
    intros f Hf s' [l Hl]. destruct (Hf s') as [l' Hl'].
    exists (l ++ l')%list. rewrite Hl', Hl, app_assoc. reflexivity.
  - exists []. rewrite app_nil_r. reflexivity.
Qed.

(** C9.  The history log is append-only.  Every state update of the
    Generate, Refine and Diagnose handlers, on the success and on the
    failure paths, keeps the existing entries in order and at most adds
    entries at the end; hence the history before a run is a prefix of the
    history of every state the run goes through and of its final
    state. *)
Theorem history_is_append_only (svc : Service) (n : nat) (s : DesignState.t) :
  let extends (r : list event * DesignState.t) :=
    Forall (fun s' => exists l, history s' = (history s ++ l)%list) (states (fst r))
    /\ exists l, history (snd r) = (history s ++ l)%list in
  (forall location plotDimensions priority requirements,
     every_update appends
       (handleGenerate location plotDimensions priority requirements)
     /\ extends (Generate svc n location plotDimensions priority requirements s))
  /\ (every_update appends (handleRefine s) /\ extends (Refine svc n s))
  /\ (every_update appends (handleRunDiagnostics s) /\ extends (Diagnose svc n s)).
Proof.
  intros extends. subst extends. split; [|split].
  - intros location plotDimensions priority requirements.
    split; [apply handleGenerate_appends|].
    apply appends_run, handleGenerate_appends.
  - split; [apply handleRefine_appends|].
    apply appends_run, handleRefine_appends.
  - split; [apply handleRunDiagnostics_appends|].
    apply appends_run, handleRunDiagnostics_appends.
Qed.

End Workflows.

(* ===================================================================== *)
(** * More on the canvas and the room layer *)
(* ===================================================================== *)

Section Canvas.
Import JS FloorPlanViewer RoomLayer.













End Canvas.

(* ===================================================================== *)
(** * More on the centroid map and the overlays *)
(* ===================================================================== *)

Section Entries.
Import JS.
Variable V : Type.
Implicit Types (k : string) (v : V) (l : list (string * V)).

Lemma lookup_in k v l : lookup k l = Some v -> In (k, v) l.
Proof.
  induction l as [|[k1 v1] l IH]; simpl; [discriminate|].
  destruct (String.eqb_spec k k1) as [->|_].
  - intros E. injection E as ->. left. reflexivity.
  - intros E. right. apply IH, E.
Qed.

Lemma in_replace k v l e :
  In e (replace k v l) -> e = (k, v) \/ In e l.
Proof.
  induction l as [|[k1 v1] l IH]; simpl; [tauto|].
  destruct (String.eqb_spec k k1) as [->|_]; simpl.
  - intros [<-|H]; [left; reflexivity | right; right; exact H].
  - intros [<-|H]; [right; left; reflexivity|].
    destruct (IH H) as [->|H']; [left; reflexivity | right; right; exact H'].
Qed.

Lemma in_insert_index i e0 l e :
  In e (insert_index i e0 l) -> e = e0 \/ In e l.
Proof.
  induction l as [|e1 l IH]; simpl.
  - intros [<-|[]]. left. reflexivity.
  - destruct (array_index (fst e1)) as [j|].
    + destruct (j <? i)%N; simpl.
      * intros [<-|H]; [right; left; reflexivity|].
        destruct (IH H) as [->|H']; [left; reflexivity | right; right; exact H'].
      * intros [<-|H]; [left; reflexivity | right; exact H].
    + simpl. intros [<-|H]; [left; reflexivity | right; exact H].
Qed.

(** An entry of the list after [define] is the defined one or was there
    before. *)
Lemma in_define k v l e :
  In e (define k v l) -> e = (k, v) \/ In e l.
Proof.
  unfold define. destruct (lookup k l).
  - apply in_replace.
  - destruct (array_index k).
    + apply in_insert_index.
    + intros H. apply in_app_or in H. destruct H as [H|[<-|[]]]; auto.
Qed.

End Entries.

Section Sound.
Import JS FloorPlanViewer Reference.

(** Whatever the room names, every centroid the map holds, as an own
    property or as its prototype, was recorded for a room of that
    (lowercased) name. *)
Lemma recorded_for_a_room (f : Room.t -> Centroid.t) (rooms : list Room.t) :
  forall o : object Centroid.t,
    let o' := fold_left (fun c r => assign c (key r) (f r)) rooms o in
    (forall k p, In (k, p) (own o') ->
       In (k, p) (own o) \/ exists r, In r rooms /\ key r = k /\ p = f r)
    /\ (forall p, prototype o' = Some p ->
          prototype o = Some p
          \/ exists r, In r rooms /\ key r = "__proto__"%string /\ p = f r).
Proof.
  induction rooms as [|r rooms IH]; intros o; simpl.
  - split; intros; left; assumption.
  - destruct (IH (assign o (key r) (f r))) as [Hown Hproto].
    split.
    + intros k p Hin. destruct (Hown k p Hin) as [H|(r' & Hr' & Hk & Hp)].
      * unfold assign in H.
        destruct (String.eqb_spec (key r) "__proto__"); simpl in H.
        -- left. exact H.
        -- apply in_define in H. destruct H as [E|H]; [|left; exact H].
           injection E as Ek Ep. right. exists r.
           split; [left; reflexivity | split; [symmetry; exact Ek | exact Ep]].
      * right. exists r'. split; [right; exact Hr' | split; assumption].
    + intros p Hp. destruct (Hproto p Hp) as [H|(r' & Hr' & Hk & Hq)].
      * unfold assign in H.
        destruct (String.eqb_spec (key r) "__proto__") as [E|_]; simpl in H.
        -- injection H as Ep. right. exists r.
           split; [left; reflexivity | split; [exact E | symmetry; exact Ep]].
        -- left. exact H.
      * right. exists r'. split; [right; exact Hr' | split; assumption].
Qed.

Lemma roomCentroids_recorded (plan : FloorPlan.t) :
  (forall k p, In (k, p) (own (roomCentroids plan)) ->
     exists r, In r (FloorPlan.rooms plan) /\ key r = k /\ p = centroid plan r)
  /\ (forall p, prototype (roomCentroids plan) = Some p ->
        exists r, In r (FloorPlan.rooms plan)
                  /\ key r = "__proto__"%string /\ p = centroid plan r).
Proof.
  destruct (recorded_for_a_room (centroid plan) (FloorPlan.rooms plan)
              (empty Centroid.t)) as [Hown Hproto].
  split.
  - intros k p H. destruct (Hown k p H) as [[]|E]. exact E.
  - intros p H. destruct (Hproto p H) as [E|E]; [discriminate | exact E].
Qed.

(** The centroid [findCentroid] returns belongs to a room of the plan
    whose lowercased name is related to the normalized reference. *)
Lemma findCentroid_is_a_room (plan : FloorPlan.t) (roomRef : string)
  (p : Centroid.t) :
  findCentroid plan roomRef = Object p ->
  exists r, In r (FloorPlan.rooms plan)
            /\ p = centroid plan r
            /\ related (key r) (trim (toLowerCase roomRef)) = true.
Proof.
  destruct (roomCentroids_recorded plan) as [Hown Hproto].
  unfold findCentroid.
  set (ref := trim (toLowerCase roomRef)).
  set (c := roomCentroids plan) in *.
  assert (get c ref = Object p ->
          exists r, In r (FloorPlan.rooms plan) /\ p = centroid plan r
                    /\ related (key r) ref = true) as Hget.
  { unfold get.
    destruct (lookup ref (own c)) as [q|] eqn:L.
    - intros E. injection E as ->. apply lookup_in in L.
      destruct (Hown ref p L) as (r & Hr & Hk & Hp).
      exists r. repeat split; try assumption.
      rewrite Hk. unfold related. rewrite includes_refl. reflexivity.
    - destruct (prototype c) as [q|] eqn:Pr.
      + destruct (ref =? "x")%string; [discriminate|].
        destruct (ref =? "y")%string; [discriminate|].
        unfold inherited.
        destruct (String.eqb_spec ref "__proto__") as [E|_].
        * intros H. injection H as ->.
          destruct (Hproto p eq_refl) as (r & Hr & Hk & Hp).
          exists r. repeat split; try assumption.
          rewrite Hk, E. reflexivity.
        * destruct (is_method ref); discriminate.
      + unfold inherited.
        destruct (ref =? "__proto__")%string; [discriminate|].
        destruct (is_method ref); discriminate. }
  destruct (truthy (get c ref)); [exact Hget|].
  unfold Object_entries.
  destruct (find (fun e => related (fst e) ref) (own c)) as [[k q]|] eqn:F;
    [|discriminate].
  intros E. injection E as <-. apply find_some in F. destruct F as [Hin Hrel].
  destruct (Hown k q Hin) as (r & Hr & Hk & Hp).
  exists r. repeat split; try assumption. rewrite Hk. exact Hrel.
Qed.

End Sound.

Section Lines.
Import JS FloorPlanViewer Reference RoomLayer.

(** X5.  Whatever the room names and the reference, a centroid returned by
    [findCentroid] is the centroid of a room of the plan whose lowercased
    name contains the normalized reference or is contained by it. *)
Theorem resolution_is_sound (plan : FloorPlan.t) (roomRef : string)
  (p : Centroid.t) :
  findCentroid plan roomRef = Object p ->
  exists r, In r (FloorPlan.rooms plan)
            /\ p = centroid plan r
            /\ related (key r) (trim (toLowerCase roomRef)) = true.
Proof. apply findCentroid_is_a_room. Qed.


End Lines.

Section Names.
Import JS FloorPlanViewer Reference RoomLayer.

Lemma keys_identify_rooms (rooms : list Room.t) (a b : Room.t) :
  NoDup (map key rooms) -> In a rooms -> In b rooms -> key a = key b -> a = b.
Proof.
  induction rooms as [|r rooms IH]; simpl; [tauto|].
  intros N Ha Hb E. inversion N as [|? ? Hnot N']; subst.
  destruct Ha as [->|Ha], Hb as [->|Hb].
  - reflexivity.
  - elim Hnot. rewrite E. apply in_map, Hb.
  - elim Hnot. rewrite <- E. apply in_map, Ha.
  - apply IH; assumption.
Qed.

(** X7.  On a plan whose lowercased room names are pairwise distinct and
    are neither array indices nor [__proto__], a reference that
    normalizes to the lowercased name of a room (other than
    [constructor]) resolves to the centroid of that very room. *)
Theorem rooms_resolve_by_their_own_name (plan : FloorPlan.t) (room : Room.t)
  (roomRef : string) :
  ordinary_names plan = true ->
  NoDup (map key (FloorPlan.rooms plan)) ->
  In room (FloorPlan.rooms plan) ->
  trim (toLowerCase roomRef) = key room ->
  key room <> "constructor"%string ->
  findCentroid plan roomRef = Object (centroid plan room).
Proof.
  intros Hord Hnd Hin Href Hc.
  assert (ordinary (key room) = true) as Ho.
  { unfold ordinary_names in Hord. rewrite forallb_forall in Hord.
    apply Hord, Hin. }
  assert (key room <> "__proto__"%string) as Hp.
  { intros E. apply ordinary_not_proto in Ho. rewrite E in Ho. discriminate. }
  rewrite (findCentroid_ordinary plan roomRef Hord); rewrite Href; try assumption.
  destruct (lastNamed_exists plan room Hin) as [r' Hr']. rewrite Hr'.
  apply lastNamed_some in Hr'. destruct Hr' as [Hin' Hk].
  rewrite (keys_identify_rooms _ r' room Hnd Hin' Hin Hk). reflexivity.
Qed.

Lemma toLowerCase_app (a b : string) :
  toLowerCase (a ++ b) = (toLowerCase a ++ toLowerCase b)%string.
Proof.
  induction a as [|c a IH]; simpl; [reflexivity | rewrite IH; reflexivity].
Qed.

Lemma lower_char_space (c : ascii) : is_space (lower_char c) = is_space c.
Proof.
  destruct c as [[] [] [] [] [] [] [] []]; vm_compute; reflexivity.
Qed.

Lemma blank_toLowerCase (s : string) : blank (toLowerCase s) = blank s.
Proof.
  induction s as [|c s IH]; simpl; [reflexivity|].
  rewrite lower_char_space, IH. reflexivity.
Qed.

Lemma trimStart_blank (w : string) : blank w = true -> trimStart w = EmptyString.
Proof.
  induction w as [|c w IH]; simpl; [reflexivity|].
  intros H. apply andb_true_iff in H. destruct H as [-> H]. apply IH, H.
Qed.

Lemma trimEnd_blank (w : string) : blank w = true -> trimEnd w = EmptyString.
Proof.
  induction w as [|c w IH]; simpl; [reflexivity|].
  intros H. apply andb_true_iff in H. destruct H as [Hc H].
  rewrite (IH H), Hc. reflexivity.
Qed.

Lemma trimStart_app (s w : string) :
  trimStart (s ++ w)
  = match trimStart s with
    | EmptyString => trimStart w
    | t => (t ++ w)%string
    end.
Proof.
  induction s as [|c s IH]; simpl; [destruct (trimStart w); reflexivity|].
  destruct (is_space c); [exact IH | reflexivity].
Qed.

Lemma trimEnd_app_blank (s w : string) :
  blank w = true -> trimEnd (s ++ w) = trimEnd s.
Proof.
  intros H. induction s as [|c s IH]; simpl.
  - apply trimEnd_blank, H.
  - rewrite IH. reflexivity.
Qed.

(** Blank strings around a string do not change what [trim] returns. *)
Lemma trim_padding (a s b : string) :
  blank a = true -> blank b = true -> trim (a ++ s ++ b) = trim s.
Proof.
  intros Ha Hb. unfold trim.
  rewrite trimStart_app, (trimStart_blank a Ha), trimStart_app.
  destruct (trimStart s) as [|c t].
  - rewrite (trimStart_blank b Hb). reflexivity.
  - apply (trimEnd_app_blank (String c t) b Hb).
Qed.

(** X8.  White space around a reference and the case of its letters do not
    change what [findCentroid] returns. *)
Theorem reference_padding_and_case_are_ignored (plan : FloorPlan.t)
  (a roomRef b other : string) :
  blank a = true -> blank b = true ->
  toLowerCase other = toLowerCase roomRef ->
  findCentroid plan (a ++ other ++ b) = findCentroid plan roomRef.
Proof.
  intros Ha Hb Hcase. unfold findCentroid.
  rewrite !toLowerCase_app, Hcase, trim_padding;
    [reflexivity | rewrite blank_toLowerCase; assumption ..].
Qed.

End Names.

Section Tints.
Import JS FloorPlanViewer RoomLayer.

(** X9.  Of two rooms with a heat-risk entry, the one with the higher level
    is tinted with the strictly higher opacity, and every opacity lies
    strictly between 0 and 1. *)
Theorem heat_tint_grows_with_the_level
  (plan plan' : FloorPlan.t) (room room' : Room.t) (z z' : HeatRiskZone.t) :
  heatRisk plan room = Some z ->
  heatRisk plan' room' = Some z' ->
  (rank (HeatRiskZone.level z) < rank (HeatRiskZone.level z'))%nat ->
  exists o o' : Q,
    heatOverlay true plan room = Some o
    /\ heatOverlay true plan' room' = Some o'
    /\ (0 < o)%Q /\ (o < o')%Q /\ (o' < 1)%Q.
Proof.
  intros H H' Hlt. unfold heatOverlay. rewrite H, H'.
  do 2 eexists. split; [reflexivity | split; [reflexivity|]].
  destruct (HeatRiskZone.level z), (HeatRiskZone.level z'); simpl in Hlt;
    try lia; repeat split; reflexivity.
Qed.

(** X10.  Two room types are drawn in the same colour exactly when they are
    the same type or are both among utility and circulation, which share
    the fallback colour. *)
Theorem room_colours_tell_five_types_apart (a b : RoomType) :
  getRoomColor a = getRoomColor b
  <-> a = b
      \/ (a = utility \/ a = circulation) /\ (b = utility \/ b = circulation).
Proof.
  split.
  - destruct a, b; simpl; intros H; try discriminate H; auto.
  - intros [->|[[-> | ->] [-> | ->]]]; reflexivity.
Qed.

End Tints.

(* ===================================================================== *)
(** * More on the climate card *)
(* ===================================================================== *)

Section Card.
Import JS ClimateCard ClimateSummary.










End Card.

(* ===================================================================== *)
(** * More on the controller *)
(* ===================================================================== *)

Section Controller.
Import App DesignState Workflow Controls.
Open Scope string_scope.

(** X15.  Generate with an empty location, Refine without a plan or without
    a climate, and Diagnose without a plan make no request and leave the
    state as it is. *)
Theorem workflows_without_their_inputs_do_nothing
  (svc : Service) (n : nat) (s : DesignState.t) :
  (forall plotDimensions priority requirements,
     Generate svc n "" plotDimensions priority requirements s = ([], s))
  /\ (floorPlan s = None \/ climate s = None -> Refine svc n s = ([], s))
  /\ (floorPlan s = None -> Diagnose svc n s = ([], s)).
Proof.
  split; [reflexivity | split].
  - unfold Refine, handleRefine. intros [E|E]; rewrite E; [reflexivity|].
    destruct (floorPlan s); reflexivity.
  - unfold Diagnose, handleRunDiagnostics. intros E. rewrite E. reflexivity.
Qed.

(** X16.  When the climate fetch of Generate fails, the design generation
    is never requested: the run made that one request, the error is the
    error's message (or "Failed to generate design."), the generating
    flag is false, and the climate, the plan and the history are those
    from before. *)
Theorem failed_climate_fetch_ends_the_run (svc : Service) (n : nat)
  (s : DesignState.t) (location plotDimensions : string) (priority : Priority)
  (requirements : string) (err : JsError) :
  location <> "" ->
  svc _ n (getClimateData location plotDimensions priority) = Rejected err ->
  let r := Generate svc n location plotDimensions priority requirements s in
  calls (fst r) = [ Call (getClimateData location plotDimensions priority) ]
  /\ error (snd r) = Some (or_else (message err) "Failed to generate design.")
  /\ isGenerating (snd r) = false
  /\ climate (snd r) = climate s
  /\ floorPlan (snd r) = floorPlan s
  /\ history (snd r) = history s.
Proof.
  intros Hloc H1 r. subst r. unfold Generate, handleGenerate.
  destruct (String.eqb_spec location "") as [E|_]; [contradiction|].
  simpl. rewrite H1. simpl. repeat split.
Qed.

(** X17.  A Generate run with a non-empty location removes the refinement,
    the verdict and the previous plan in its first update, and they stay
    removed whether the run succeeds or fails; the error is empty at the
    end exactly when both requests succeeded. *)
Theorem generate_discards_the_refinement (svc : Service) (n : nat)
  (s : DesignState.t) (location plotDimensions : string) (priority : Priority)
  (requirements : string) :
  location <> "" ->
  let r := Generate svc n location plotDimensions priority requirements s in
  let cleared s' :=
    refinement s' = None /\ optimizationVerdict s' = None
    /\ previousFloorPlan s' = None in
  Forall cleared (states (fst r))
  /\ cleared (snd r)
  /\ (error (snd r) = None
      <-> exists c p,
            svc _ n (getClimateData location plotDimensions priority) = Fulfilled c
            /\ svc _ (S n) (generateDesign c plotDimensions requirements)
               = Fulfilled p).
Proof.
  intros Hloc r cleared. subst r cleared. unfold Generate, handleGenerate.
  destruct (String.eqb_spec location "") as [E|_]; [contradiction|].
  simpl.
  destruct (svc ClimateData.t n (getClimateData location plotDimensions priority))
    as [c|err]; simpl.
  - destruct (svc FloorPlan.t (S n) (generateDesign c plotDimensions requirements))
      as [p|err] eqn:H2; simpl.
    + split; [repeat constructor | split; [repeat split|]].
      split; [intros _; exists c, p; split; [reflexivity | exact H2] | reflexivity].
    + split; [repeat constructor | split; [repeat split|]].
      split; [discriminate|].
      intros (c' & p' & Hc & Hp). injection Hc as <-. rewrite H2 in Hp. discriminate.
  - split; [repeat constructor | split; [repeat split|]].
    split; [discriminate | intros (c' & p' & Hc & _); discriminate].
Qed.

(** X18.  Started in a state where no flag is up, each of the three
    workflows ends with no flag up, whatever the service answers. *)
Theorem workflows_end_idle (svc : Service) (n : nat) (s : DesignState.t) :
  idle s ->
  (forall location plotDimensions priority requirements,
     idle (snd (Generate svc n location plotDimensions priority requirements s)))
  /\ idle (snd (Refine svc n s))
  /\ idle (snd (Diagnose svc n s)).
Proof.
  intros (Hg & Hr & He & Hd). unfold idle. split; [|split].
  - intros location plotDimensions priority requirements.
    unfold Generate, handleGenerate.
    destruct (location =? ""); simpl; [auto|].
    destruct (svc ClimateData.t n (getClimateData location plotDimensions priority))
      as [c|err]; simpl; [|auto].
    destruct (svc FloorPlan.t (S n) (generateDesign c plotDimensions requirements));
      simpl; auto.
  - unfold Refine, handleRefine.
    destruct (floorPlan s) as [p0|]; simpl; [|auto].
    destruct (climate s) as [c0|]; simpl; [|auto].
    destruct (svc RefinementResult.t n (refineDesign p0 c0)) as [rf|err];
      simpl; [|auto].
    destruct (svc OptimizationEvaluation.t (S n)
                (evaluateOptimization
                   (FloorPlan.performanceMetrics
                      (RefinementResult.revised_floor_plan rf))));
      simpl; auto.
  - unfold Diagnose, handleRunDiagnostics.
    destruct (floorPlan s) as [p0|]; simpl; [|auto].
    destruct (svc ClimateDiagnostics.t n (getDiagnostics p0)); simpl; auto.
Qed.

(** X19.  Whatever the service answers, a Generate run makes at most two
    requests, a Refine run at most two and a Diagnose run at most one:
    nothing is retried. *)
Theorem workflows_make_no_second_attempt (svc : Service) (n : nat)
  (s : DesignState.t) :
  (forall location plotDimensions priority requirements,
     (List.length (calls (fst (Generate svc n location plotDimensions priority
                            requirements s))) <= 2)%nat)
  /\ (List.length (calls (fst (Refine svc n s))) <= 2)%nat
  /\ (List.length (calls (fst (Diagnose svc n s))) <= 1)%nat.
Proof.
  split; [|split].
  - intros location plotDimensions priority requirements.
    unfold Generate, handleGenerate.
    destruct (location =? ""); simpl; [lia|].
    destruct (svc ClimateData.t n (getClimateData location plotDimensions priority))
      as [c|err]; simpl; [|lia].
    destruct (svc FloorPlan.t (S n) (generateDesign c plotDimensions requirements));
      simpl; lia.
  - unfold Refine, handleRefine.
    destruct (floorPlan s) as [p0|]; simpl; [|lia].
    destruct (climate s) as [c0|]; simpl; [|lia].
    destruct (svc RefinementResult.t n (refineDesign p0 c0)) as [rf|err];
      simpl; [|lia].
    destruct (svc OptimizationEvaluation.t (S n)
                (evaluateOptimization
                   (FloorPlan.performanceMetrics
                      (RefinementResult.revised_floor_plan rf))));
      simpl; lia.
  - unfold Diagnose, handleRunDiagnostics.
    destruct (floorPlan s) as [p0|]; simpl; [|lia].
    destruct (svc ClimateDiagnostics.t n (getDiagnostics p0)); simpl; lia.
Qed.

(** X20.  A successful Refine and a successful Diagnose leave the error
    message in place; a successful Generate removes it. *)
Theorem only_generate_clears_the_error (svc : Service) (n : nat)
  (s : DesignState.t) (p0 : FloorPlan.t) (c0 : ClimateData.t) :
  floorPlan s = Some p0 ->
  climate s = Some c0 ->
  (forall rf v,
     svc _ n (refineDesign p0 c0) = Fulfilled rf ->
     svc _ (S n)
       (evaluateOptimization
          (FloorPlan.performanceMetrics (RefinementResult.revised_floor_plan rf)))
     = Fulfilled v ->
     error (snd (Refine svc n s)) = error s)
  /\ (forall d,
        svc _ n (getDiagnostics p0) = Fulfilled d ->
        error (snd (Diagnose svc n s)) = error s)
  /\ (forall location plotDimensions priority requirements c p,
        location <> "" ->
        svc _ n (getClimateData location plotDimensions priority) = Fulfilled c ->
        svc _ (S n) (generateDesign c plotDimensions requirements) = Fulfilled p ->
        error (snd (Generate svc n location plotDimensions priority requirements s))
        = None).
Proof.
  intros Hp Hc. split; [|split].
  - intros rf v H1 H2. unfold Refine, handleRefine. rewrite Hp, Hc. simpl.
    rewrite H1. simpl. rewrite H2. reflexivity.
  - intros d H1. unfold Diagnose, handleRunDiagnostics. rewrite Hp. simpl.
    rewrite H1. reflexivity.
  - intros location plotDimensions priority requirements c p Hloc H1 H2.
    unfold Generate, handleGenerate.
    destruct (String.eqb_spec location "") as [E|_]; [contradiction|].
    simpl. rewrite H1. simpl. rewrite H2. reflexivity.
Qed.

End Controller.

Section Screen.
Import App DesignState Workflow Controls.
Open Scope string_scope.

(** X21.  A floor plan is stored exactly when a climate is: this holds in
    the initial state and, if it holds before a Generate, Refine or
    Diagnose run, in every state of the run and at its end. *)
Theorem plan_and_climate_come_together (svc : Service) (n : nat)
  (s : DesignState.t) :
  paired initialState
  /\ (paired s ->
      (forall location plotDimensions priority requirements,
         let r := Generate svc n location plotDimensions priority requirements s in
         Forall paired (states (fst r)) /\ paired (snd r))
      /\ (Forall paired (states (fst (Refine svc n s)))
          /\ paired (snd (Refine svc n s)))
      /\ (Forall paired (states (fst (Diagnose svc n s)))
          /\ paired (snd (Diagnose svc n s)))).
Proof.
  split; [reflexivity|]. unfold paired. intros H. split; [|split].
  - intros location plotDimensions priority requirements. cbv zeta.
    unfold Generate, handleGenerate.
    destruct (location =? ""); simpl; [split; [constructor | exact H]|].
    destruct (svc ClimateData.t n (getClimateData location plotDimensions priority))
      as [c|err]; simpl.
    + destruct (svc FloorPlan.t (S n) (generateDesign c plotDimensions requirements));
        simpl; split; repeat constructor; simpl; try exact H.
    + split; repeat constructor; simpl; exact H.
  - unfold Refine, handleRefine.
    destruct (floorPlan s) as [p0|] eqn:Hp; simpl;
      [|split; [constructor | rewrite Hp; exact H]].
    destruct (climate s) as [c0|] eqn:Hc; simpl;
      [|split; [constructor | rewrite Hp, Hc; exact H]].
    destruct (svc RefinementResult.t n (refineDesign p0 c0)) as [rf|err]; simpl.
    + destruct (svc OptimizationEvaluation.t (S n)
                  (evaluateOptimization
                     (FloorPlan.performanceMetrics
                        (RefinementResult.revised_floor_plan rf))));
        simpl; split; repeat constructor; simpl; rewrite ?Hp, ?Hc; reflexivity.
    + split; repeat constructor; simpl; rewrite ?Hp, ?Hc; reflexivity.
  - unfold Diagnose, handleRunDiagnostics.
    destruct (floorPlan s) as [p0|] eqn:Hp; simpl;
      [|split; [constructor | rewrite Hp; exact H]].
    destruct (svc ClimateDiagnostics.t n (getDiagnostics p0)); simpl;
      split; repeat constructor; simpl; rewrite ?Hp; simpl; exact H.
Qed.

(** X22.  Where the Refine button is shown (and a plan is stored exactly
    when a climate is), pressing it requests the refinement of the
    stored plan.  Once that request has succeeded the button is no longer
    shown and the revision reads "Optimized V2"; a successful Generate
    brings it back with "Initial Draft". *)
Theorem refine_is_offered_once (svc : Service) (n : nat) (s : DesignState.t) :
  (paired s -> refineShown s = true ->
   exists p c rest,
     floorPlan s = Some p /\ climate s = Some c
     /\ calls (fst (Refine svc n s)) = Call (refineDesign p c) :: rest)
  /\ (forall p c rf,
        floorPlan s = Some p -> climate s = Some c ->
        svc _ n (refineDesign p c) = Fulfilled rf ->
        refineShown (snd (Refine svc n s)) = false
        /\ revisionLabel (snd (Refine svc n s)) = "Optimized V2")
  /\ (forall location plotDimensions priority requirements c p,
        location <> "" ->
        svc _ n (getClimateData location plotDimensions priority) = Fulfilled c ->
        svc _ (S n) (generateDesign c plotDimensions requirements) = Fulfilled p ->
        let s' := snd (Generate svc n location plotDimensions priority
                         requirements s) in
        refineShown s' = true /\ revisionLabel s' = "Initial Draft").
Proof.
  split; [|split].
  - unfold paired, refineShown. intros Hpair Hshown.
    apply andb_true_iff in Hshown. destruct Hshown as [Hp _].
    rewrite Hp in Hpair.
    destruct (floorPlan s) as [p|] eqn:Ep; [|discriminate].
    destruct (climate s) as [c|] eqn:Ec; [|discriminate].
    unfold Refine, handleRefine. rewrite Ep, Ec. simpl.
    destruct (svc RefinementResult.t n (refineDesign p c)) as [rf|err]; simpl.
    + destruct (svc OptimizationEvaluation.t (S n)
                  (evaluateOptimization
                     (FloorPlan.performanceMetrics
                        (RefinementResult.revised_floor_plan rf))));
        simpl; eauto 8.
    + eauto 8.
  - intros p c rf Ep Ec H1. unfold Refine, handleRefine. rewrite Ep, Ec. simpl.
    rewrite H1. simpl.
    destruct (svc OptimizationEvaluation.t (S n)
                (evaluateOptimization
                   (FloorPlan.performanceMetrics
                      (RefinementResult.revised_floor_plan rf))));
      simpl; split; reflexivity.
  - intros location plotDimensions priority requirements c p Hloc H1 H2 s'.
    subst s'. unfold Generate, handleGenerate.
    destruct (String.eqb_spec location "") as [E|_]; [contradiction|].
    simpl. rewrite H1. simpl. rewrite H2. simpl. split; reflexivity.
Qed.

(** X23.  While the first request of Generate is pending the Generate
    button is disabled, the other two buttons are disabled or not as
    before and the Diagnostic Audit button is shown as before, but the
    Refine button is shown whenever a plan is stored, also when a stored
    refinement had hidden it: the first update clears the refinement, so
    after a refinement the button comes back, enabled.  While the refine
    request is pending all three buttons are disabled and shown as
    before; while the diagnostics request is pending the Diagnostic Audit
    button is disabled and the other two are disabled and shown as
    before. *)
Theorem buttons_while_a_request_is_pending (s : DesignState.t) :
  (forall location plotDimensions priority requirements other,
     location <> "" ->
     let s' := snd (sync (handleGenerate location plotDimensions priority
                            requirements) s) in
     generateDisabled s' other = true
     /\ refineDisabled s' = refineDisabled s
     /\ diagnoseDisabled s' = diagnoseDisabled s
     /\ diagnoseShown s' = diagnoseShown s
     /\ refineShown s' = diagnoseShown s
     /\ revisionLabel s' = "Initial Draft")
  /\ (let s0 := SampleService.optimized in
      let s' := snd (sync (handleGenerate "Phoenix" "15m x 20m" cooling
                             "3 bedrooms") s0) in
      refineShown s0 = false
      /\ refineShown s' = true
      /\ refineDisabled s' = false)
  /\ (forall p c other,
        floorPlan s = Some p -> climate s = Some c ->
        let s' := snd (sync (handleRefine s) s) in
        generateDisabled s' other = true
        /\ refineDisabled s' = true
        /\ diagnoseDisabled s' = true
        /\ diagnoseShown s' = diagnoseShown s
        /\ refineShown s' = refineShown s)
  /\ (forall p other,
        floorPlan s = Some p ->
        let s' := snd (sync (handleRunDiagnostics s) s) in
        diagnoseDisabled s' = true
        /\ refineDisabled s' = refineDisabled s
        /\ generateDisabled s' other = generateDisabled s other
        /\ diagnoseShown s' = diagnoseShown s
        /\ refineShown s' = refineShown s).
Proof.
  split; [|split; [|split]].
  - intros location plotDimensions priority requirements other Hloc s'. subst s'.
    unfold handleGenerate.
    destruct (String.eqb_spec location "") as [E|_]; [contradiction|].
    unfold refineShown, diagnoseShown, revisionLabel. simpl.
    rewrite andb_true_r. repeat split.
  - cbv zeta. split; [reflexivity | split; reflexivity].
  - intros p c other Ep Ec s'. subst s'. unfold handleRefine. rewrite Ep, Ec.
    unfold generateDisabled, refineDisabled, diagnoseDisabled. simpl.
    rewrite !orb_true_r. repeat split.
  - intros p other Ep s'. subst s'. unfold handleRunDiagnostics. rewrite Ep.
    simpl. repeat split.
Qed.

Lemma length_firstn_le (A : Type) (k : nat) (l : list A) :
  (List.length (firstn k l) <= k)%nat.
Proof. rewrite length_firstn. lia. Qed.

Lemma in_firstn (A : Type) (k : nat) (l : list A) (a : A) :
  In a (firstn k l) -> In a l.
Proof.
  revert l. induction k as [|k IH]; intros [|b l]; simpl; try tauto.
  intros [->|H]; [left; reflexivity | right; apply IH, H].
Qed.

(** X24.  At most six reasoning cards are shown; each belongs to a room of
    the plan with a non-empty reasoning; they are the first such rooms in
    plan order, and all of them when there are no more than six. *)
Theorem at_most_six_reasoning_cards (plan : FloorPlan.t) :
  let stated :=
    filter (fun r => negb (Room.reasoning r =? "")) (FloorPlan.rooms plan) in
  (List.length (reasoningCards plan) <= 6)%nat
  /\ (forall r, In r (reasoningCards plan) ->
                In r (FloorPlan.rooms plan) /\ Room.reasoning r <> "")
  /\ (exists rest, stated = (reasoningCards plan ++ rest)%list)
  /\ ((List.length stated <= 6)%nat -> reasoningCards plan = stated).
Proof.
  intros stated. unfold reasoningCards. fold stated.
  split; [apply length_firstn_le | split; [|split]].
  - intros r H. apply in_firstn in H. subst stated.
    apply filter_In in H. destruct H as [Hin Hr]. split; [exact Hin|].
    intros E. rewrite E in Hr. discriminate.
  - exists (skipn 6 stated). symmetry. apply firstn_skipn.
  - intros H. apply firstn_all2. exact H.
Qed.

(** X25.  Whatever the service answers, Generate leaves the refining,
    evaluating and diagnosing flags alone; Refine leaves the climate and
    the generating and diagnosing flags alone; Diagnose leaves the
    climate, the previous plan, the refinement, the verdict, the history
    and the other three flags alone. *)
Theorem workflows_keep_to_their_fields (svc : Service) (n : nat)
  (s : DesignState.t) :
  (forall location plotDimensions priority requirements,
     let s' := snd (Generate svc n location plotDimensions priority
                      requirements s) in
     isRefining s' = isRefining s /\ isEvaluating s' = isEvaluating s
     /\ isDiagnosing s' = isDiagnosing s)
  /\ (let s' := snd (Refine svc n s) in
      climate s' = climate s /\ isGenerating s' = isGenerating s
      /\ isDiagnosing s' = isDiagnosing s)
  /\ (let s' := snd (Diagnose svc n s) in
      climate s' = climate s /\ previousFloorPlan s' = previousFloorPlan s
      /\ refinement s' = refinement s
      /\ optimizationVerdict s' = optimizationVerdict s
      /\ history s' = history s
      /\ isGenerating s' = isGenerating s /\ isRefining s' = isRefining s
      /\ isEvaluating s' = isEvaluating s).
Proof.
  split; [|split].
  - intros location plotDimensions priority requirements s'. subst s'.
    unfold Generate, handleGenerate.
    destruct (location =? ""); simpl; [repeat split|].
    destruct (svc ClimateData.t n (getClimateData location plotDimensions priority))
      as [c|err]; simpl; [|repeat split].
    destruct (svc FloorPlan.t (S n) (generateDesign c plotDimensions requirements));
      simpl; repeat split.
  - intros s'. subst s'. unfold Refine, handleRefine.
    destruct (floorPlan s) as [p0|]; simpl; [|repeat split].
    destruct (climate s) as [c0|] eqn:Hc; simpl; [|repeat split; exact Hc].
    destruct (svc RefinementResult.t n (refineDesign p0 c0)) as [rf|err];
      simpl; [|repeat split; exact Hc].
    destruct (svc OptimizationEvaluation.t (S n)
                (evaluateOptimization
                   (FloorPlan.performanceMetrics
                      (RefinementResult.revised_floor_plan rf))));
      simpl; repeat split; exact Hc.
  - intros s'. subst s'. unfold Diagnose, handleRunDiagnostics.
    destruct (floorPlan s) as [p0|]; simpl; [|repeat split].
    destruct (svc ClimateDiagnostics.t n (getDiagnostics p0)); simpl; repeat split.
Qed.

End Screen.

Section Overlap.
Import App DesignState Workflow Controls.
Open Scope string_scope.

(** Running a handler to its end is running it to its next [await],
    settling the promise and going on. *)
Lemma run_resumes_after_sync (svc : Service) (h : handler) :
  forall n s,
    snd (run svc h n s)
    = match fst (sync h s) with
      | await req k => snd (run svc (k (svc _ n req)) (S n) (snd (sync h s)))
      | _ => snd (sync h s)
      end.
Proof.
  induction h as [|f k IH|R req k _]; intros n s; simpl.
  - reflexivity.
  - rewrite <- IH. destruct (run svc k n (f s)). reflexivity.
  - destruct (run svc (k (svc R n req)) (S n) s). reflexivity.
Qed.

(** X26.  A Refine started while a Diagnose is pending overlaps with it.  If
    the refinement is answered first, the diagnostics that were computed
    for the old plan are attached to the revised plan; if the diagnostics
    are answered first, they are attached to the old plan and then
    dropped when the revised plan replaces it, the previous plan being
    the old plan without them. *)
Theorem overlapping_refine_and_diagnose (svc : Service) (n : nat)
  (s : DesignState.t) (p0 : FloorPlan.t) (c0 : ClimateData.t)
  (d : ClimateDiagnostics.t) (rf : RefinementResult.t) :
  floorPlan s = Some p0 ->
  climate s = Some c0 ->
  svc _ n (getDiagnostics p0) = Fulfilled d ->
  svc _ (S n) (refineDesign p0 c0) = Fulfilled rf ->
  let revised := RefinementResult.revised_floor_plan rf in
  (* the audit is started, then the refinement while the audit is pending *)
  let audit := sync (handleRunDiagnostics s) s in
  let refine := sync (handleRefine (snd audit)) (snd audit) in
  refineDisabled (snd audit) = refineDisabled s
  (* the refinement and its evaluation are answered first *)
  /\ (let refine' := sync (settle svc (S n) (fst refine)) (snd refine) in
      let refine'' := sync (settle svc (S (S n)) (fst refine')) (snd refine') in
      let audit' := sync (settle svc n (fst audit)) (snd refine'') in
      fst audit' = Return
      /\ floorPlan (snd audit') = Some (with_diagnostics d revised)
      /\ previousFloorPlan (snd audit') = Some p0)
  (* the audit is answered first *)
  /\ (let audit' := sync (settle svc n (fst audit)) (snd refine) in
      let refine' := sync (settle svc (S n) (fst refine)) (snd audit') in
      floorPlan (snd audit') = Some (with_diagnostics d p0)
      /\ floorPlan (snd refine') = Some revised
      /\ previousFloorPlan (snd refine') = Some p0).
Proof.
  intros Hp Hc Hd Hrf revised audit refine. subst revised audit refine.
  unfold handleRunDiagnostics. rewrite Hp. simpl.
  unfold handleRefine. simpl. rewrite Hp, Hc. simpl.
  rewrite Hd, Hrf. simpl.
  split; [reflexivity|]. split.
  - destruct (svc OptimizationEvaluation.t (S (S n))
                (evaluateOptimization
                   (FloorPlan.performanceMetrics
                      (RefinementResult.revised_floor_plan rf))));
      simpl; repeat split.
  - rewrite Hp. simpl. repeat split.
Qed.

End Overlap.

(* ===================================================================== *)
(** * Instances *)
(* ===================================================================== *)

Section Witnesses.
Import JS FloorPlanViewer Reference RoomLayer ClimateCard ClimateSummary.
Import App DesignState Workflow Controls.
Open Scope string_scope.




Lemma resolution_is_sound_witness :
  findCentroid Sample.two_rooms "kitch"
  = Object (centroid Sample.two_rooms (Sample.room "Kitchen" 5 0 3 4))
  /\ exists r, In r (FloorPlan.rooms Sample.two_rooms)
               /\ related (key r) (trim (toLowerCase "kitch")) = true.
Proof.
  assert (findCentroid Sample.two_rooms "kitch"
          = Object (centroid Sample.two_rooms (Sample.room "Kitchen" 5 0 3 4)))
    as E by reflexivity.
  split; [exact E|].
  destruct (resolution_is_sound Sample.two_rooms "kitch" _ E) as (r & Hin & _ & Hr).
  exists r. split; [exact Hin | exact Hr].
Defined.


Lemma rooms_resolve_by_their_own_name_witness :
  ordinary_names Sample.two_rooms = true
  /\ NoDup (map key (FloorPlan.rooms Sample.two_rooms))
  /\ trim (toLowerCase "  KITCHEN ") = key (Sample.room "Kitchen" 5 0 3 4)
  /\ findCentroid Sample.two_rooms "  KITCHEN "
     = Object (centroid Sample.two_rooms (Sample.room "Kitchen" 5 0 3 4)).
Proof.
  assert (NoDup (map key (FloorPlan.rooms Sample.two_rooms))) as Hnd.
  { simpl. constructor.
    - intros [H|[]]. vm_compute in H. discriminate.
    - constructor; [intros [] | constructor]. }
  split; [reflexivity | split; [exact Hnd | split; [reflexivity|]]].
  apply (rooms_resolve_by_their_own_name Sample.two_rooms
           (Sample.room "Kitchen" 5 0 3 4) "  KITCHEN " eq_refl Hnd).
  - right. left. reflexivity.
  - reflexivity.
  - vm_compute. discriminate.
Defined.

Lemma reference_padding_and_case_are_ignored_witness :
  blank "  " = true /\ blank " " = true
  /\ toLowerCase "KITCHEN" = toLowerCase "Kitchen"
  /\ findCentroid Sample.two_rooms ("  " ++ "KITCHEN" ++ " ")
     = findCentroid Sample.two_rooms "Kitchen".
Proof.
  split; [reflexivity | split; [reflexivity | split; [reflexivity|]]].
  apply (reference_padding_and_case_are_ignored Sample.two_rooms
           "  " "Kitchen" " " "KITCHEN" eq_refl eq_refl eq_refl).
Defined.

Lemma heat_tint_grows_with_the_level_witness :
  heatRisk SamplePlans.bedrooms SamplePlans.bedroom_room
  = Some SamplePlans.bedroom_entry
  /\ exists o, heatOverlay true SamplePlans.bedrooms SamplePlans.bedroom_room
               = Some o /\ (o < 1)%Q.
Proof.
  split; [reflexivity|].
  pose (cool := Sample.plan "Cool" [SamplePlans.bedroom_room]
                  (Sample.diagnostics
                     [ {| HeatRiskZone.room := "Bedroom";
                          HeatRiskZone.level := low |} ] [] [])).
  destruct (heat_tint_grows_with_the_level cool SamplePlans.bedrooms
              SamplePlans.bedroom_room SamplePlans.bedroom_room
              {| HeatRiskZone.room := "Bedroom"; HeatRiskZone.level := low |}
              SamplePlans.bedroom_entry eq_refl eq_refl)
    as (o & o' & _ & H' & _ & _ & Hlt).
  - simpl. lia.
  - exists o'. split; [exact H' | exact Hlt].
Defined.



Lemma failed_climate_fetch_ends_the_run_witness :
  "Atlantis" <> ""
  /\ (let r := Generate (fun R n req =>
                           match req in request T return settled T with
                           | getClimateData _ _ _ => Rejected SampleService.quota
                           | other => SampleService.reliable n other
                           end)
                 0 "Atlantis" "15m x 20m" cooling "3 bedrooms" initialState in
      error (snd r) = Some "Quota exceeded" /\ floorPlan (snd r) = None).
Proof.
  assert ("Atlantis" <> "") as Hloc by discriminate.
  split; [exact Hloc|].
  destruct (failed_climate_fetch_ends_the_run
              (fun R n req =>
                 match req in request T return settled T with
                 | getClimateData _ _ _ => Rejected SampleService.quota
                 | other => SampleService.reliable n other
                 end)
              0 initialState "Atlantis" "15m x 20m" cooling "3 bedrooms"
              SampleService.quota Hloc eq_refl) as (_ & He & _ & _ & Hp & _).
  split; [exact He | exact Hp].
Defined.

Lemma generate_discards_the_refinement_witness :
  "Phoenix" <> ""
  /\ refinement (snd (Refine SampleService.reliable 2 SampleService.designed))
     = Some SampleService.refined
  /\ refinement
       (snd (Generate SampleService.flaky 4 "Phoenix" "15m x 20m" cooling
               "3 bedrooms"
               (snd (Refine SampleService.reliable 2 SampleService.designed))))
     = None.
Proof.
  assert ("Phoenix" <> "") as Hloc by discriminate.
  split; [exact Hloc | split; [reflexivity|]].
  destruct (generate_discards_the_refinement SampleService.flaky 4
              (snd (Refine SampleService.reliable 2 SampleService.designed))
              "Phoenix" "15m x 20m" cooling "3 bedrooms" Hloc)
    as (_ & (H & _) & _).
  exact H.
Defined.

Lemma workflows_end_idle_witness :
  idle SampleService.designed
  /\ idle (snd (Refine SampleService.flaky 2 SampleService.designed)).
Proof.
  assert (idle SampleService.designed) as Hi by (repeat split).
  split; [exact Hi|].
  destruct (workflows_end_idle SampleService.flaky 2 SampleService.designed Hi)
    as (_ & H & _).
  exact H.
Defined.

Lemma only_generate_clears_the_error_witness :
  let failed := snd (Diagnose SampleService.flaky 2 SampleService.designed) in
  floorPlan failed = Some Sample.two_rooms
  /\ climate failed = Some SampleService.phoenix
  /\ error failed = Some "Diagnostic audit failed."
  /\ error (snd (Diagnose SampleService.reliable 3 failed))
     = Some "Diagnostic audit failed.".
Proof.
  intros failed.
  split; [reflexivity | split; [reflexivity | split; [reflexivity|]]].
  destruct (only_generate_clears_the_error SampleService.reliable 3 failed
              Sample.two_rooms SampleService.phoenix eq_refl eq_refl)
    as (_ & H & _).
  exact (H SampleService.audit eq_refl).
Defined.

Lemma overlapping_refine_and_diagnose_witness :
  floorPlan SampleService.designed = Some Sample.two_rooms
  /\ climate SampleService.designed = Some SampleService.phoenix
  /\ (let audit := sync (handleRunDiagnostics SampleService.designed)
                     SampleService.designed in
      let refine := sync (handleRefine (snd audit)) (snd audit) in
      let refine' := sync (settle SampleService.reliable 3 (fst refine))
                       (snd refine) in
      let refine'' := sync (settle SampleService.reliable 4 (fst refine'))
                        (snd refine') in
      let audit' := sync (settle SampleService.reliable 2 (fst audit))
                      (snd refine'') in
      floorPlan (snd audit')
      = Some (with_diagnostics SampleService.audit SampleService.revised)).
Proof.
  split; [reflexivity | split; [reflexivity|]].
  destruct (overlapping_refine_and_diagnose SampleService.reliable 2
              SampleService.designed Sample.two_rooms SampleService.phoenix
              SampleService.audit SampleService.refined
              eq_refl eq_refl eq_refl eq_refl) as (_ & (_ & H & _) & _).
  exact H.
Defined.

End Witnesses.

